(** * tilt2transform: a shallow embedding of [tilt2transform.py]

    The program reads two alignment files (AreTomo [.aln] or IMOD [.xf]),
    takes the per-axis median of the differences between them and writes a
    rigid 3x4 transform.  Python [float] is IEEE binary64, which is Rocq's
    primitive [float]; Python [int] is [Z]; a [dict] with integer keys is a
    [gmap Z]; a [str] is a [string] whose characters are code points below
    256.  What the interpreter brings and has no counterpart here
    ([float()], [int()], [sorted()] on floats, the [repr] of a float and
    the C library's [cos], [sin] and [atan2]) are the fields of the class
    [Builtins]. *)

From Stdlib Require Import Ascii String PrimFloat FloatOps SpecFloat FloatAxioms
  DecimalString.
From stdpp Require Import gmap strings list sorting.

Local Open Scope string_scope.

(** ** Python strings *)
Module Str.

(** [str.isspace] on one character with code point below 256. *)
Definition is_space (c : ascii) : bool :=
  let n := N_of_ascii c in
  ((9 <=? n) && (n <=? 13) || (28 <=? n) && (n <=? 32)
   || (n =? 133) || (n =? 160))%N.

Fixpoint lstrip (s : string) : string :=
  match s with
  | String c s' => if is_space c then lstrip s' else s
  | EmptyString => EmptyString
  end.

Fixpoint rstrip (s : string) : string :=
  match s with
  | EmptyString => EmptyString
  | String c s' =>
      match rstrip s' with
      | EmptyString => if is_space c then EmptyString else String c EmptyString
      | r => String c r
      end
  end.

(** [s.strip()] *)
Definition strip (s : string) : string := rstrip (lstrip s).

(** [s.startswith(c)] for a one-character prefix. *)
Definition startswith (c : ascii) (s : string) : bool :=
  match s with
  | String c' _ => bool_decide (c' = c)
  | EmptyString => false
  end.

(** [s.split()]: the maximal runs of characters that are not whitespace. *)
Fixpoint split (s : string) : list string :=
  match s with
  | EmptyString => []
  | String c s' =>
      if is_space c then split s'
      else match s' with
           | EmptyString => [String c EmptyString]
           | String c' _ =>
               if is_space c' then String c EmptyString :: split s'
               else match split s' with
                    | w :: ws => String c w :: ws
                    | [] => [String c EmptyString]
                    end
           end
  end.

(** [sep.join(parts)] *)
Fixpoint join (sep : string) (parts : list string) : string :=
  match parts with
  | [] => EmptyString
  | [p] => p
  | p :: ps => p ++ sep ++ join sep ps
  end.

Definition newline : ascii := ascii_of_N 10.
Definition nl : string := String newline EmptyString.

(** The lines of a text, each without the newline that ends it; the
    last line may lack one. *)
Fixpoint lines (s : string) : list string :=
  match s with
  | EmptyString => []
  | String c s' =>
      if bool_decide (c = newline) then EmptyString :: lines s'
      else match lines s' with
           | l :: ls => String c l :: ls
           | [] => [String c EmptyString]
           end
  end.

(** The text before the first dot and, if there is one, the text after. *)
Fixpoint cut_dot (s : string) : string * option string :=
  match s with
  | EmptyString => (EmptyString, None)
  | String "." r => (EmptyString, Some r)
  | String c r => let '(a, b) := cut_dot r in (String c a, b)
  end.

(** [s1 in s2] *)
Fixpoint contains (needle hay : string) : bool :=
  String.prefix needle hay ||
  match hay with
  | EmptyString => false
  | String _ hay' => contains needle hay'
  end.

Definition is_digit (c : ascii) : bool :=
  let n := N_of_ascii c in ((48 <=? n) && (n <=? 57))%N.

Definition not_space (c : ascii) : bool := negb (is_space c).
Definition not_newline (c : ascii) : bool := negb (bool_decide (c = newline)).

Fixpoint all_chars (p : ascii → bool) (s : string) : bool :=
  match s with
  | EmptyString => true
  | String c s' => p c && all_chars p s'
  end.

End Str.
Import Str.

(** ** Python floats *)
Module Flt.

Local Open Scope float_scope.

(** [math.pi], and the two conversion factors of CPython's [mathmodule.c]. *)
Definition pi : float := 0x1.921fb54442d18p+1.
Definition degToRad : float := pi / 180.
Definition radToDeg : float := 180 / pi.

(** [math.radians] and [math.degrees] *)
Definition radians (x : float) : float := x * degToRad.
Definition degrees (x : float) : float := x * radToDeg.


(** A float that is neither a NaN nor an infinity. *)
Definition is_finite (x : float) : bool :=
  match Prim2SF x with
  | S754_zero _ | S754_finite _ _ _ => true
  | S754_infinity _ | S754_nan => false
  end.

(** [math.isnan] and [math.isinf] *)
Definition is_nan (x : float) : bool :=
  match Prim2SF x with
  | S754_nan => true
  | _ => false
  end.

Definition is_infinite (x : float) : bool :=
  match Prim2SF x with
  | S754_infinity _ => true
  | _ => false
  end.

(** [x <= y] on floats, false when either is a NaN. *)
Definition float_le (x y : float) : Prop := PrimFloat.leb x y = true.

(** The sign bit, which [-0.0] has set; a NaN prints without a sign. *)
Definition sign_bit (x : float) : bool :=
  match Prim2SF x with
  | S754_zero s | S754_infinity s | S754_finite s _ _ => s
  | S754_nan => false
  end.

Local Open Scope Z_scope.

(** [num / den] rounded to the nearest integer, ties to even ([den > 0]). *)
Definition round_half_even (num den : Z) : Z :=
  let q := num / den in
  let r := num mod den in
  if 2 * r <? den then q
  else if den <? 2 * r then q + 1
  else if Z.even q then q else q + 1.

(** [m * 2^e * 10^prec], correctly rounded to an integer. *)
Definition scaled (prec : nat) (m : positive) (e : Z) : Z :=
  let num := Z.pos m * 10 ^ Z.of_nat prec in
  if 0 <=? e then num * 2 ^ e else round_half_even num (2 ^ (- e)).

Definition digit (d : Z) : ascii := ascii_of_N (48 + Z.to_N d).

(** The [n] least significant decimal digits of [v], most significant first. *)
Fixpoint fixed_digits (n : nat) (v : Z) : string :=
  match n with
  | O => EmptyString
  | S n' => fixed_digits n' (v / 10) ++ String (digit (v mod 10)) EmptyString
  end.

Definition decimal (v : Z) : string :=
  NilZero.string_of_uint (N.to_uint (Z.to_N v)).

(** The digits of a non-negative fixed-point number with [prec] decimals,
    given as the integer [v = number * 10^prec]. *)
Definition fixed (prec : nat) (v : Z) : string :=
  let p := 10 ^ Z.of_nat prec in
  decimal (v / p) ++
  match prec with
  | O => EmptyString
  | _ => "." ++ fixed_digits prec (v mod p)
  end.

(** The sign column: [-] for a set sign bit, otherwise a blank when the
    format has the space flag ([" .6f"]) and nothing when it has not
    ([".3f"]). *)
Definition sign_column (space neg : bool) : string :=
  if neg then "-" else if space then " " else "".

(** [format(x, " .<prec>f")] when [space], [format(x, ".<prec>f")] when
    not: the exact binary value, rounded half-even at [prec] decimals. *)
Definition format_f (space : bool) (prec : nat) (x : float) : string :=
  match Prim2SF x with
  | S754_nan => sign_column space false ++ "nan"
  | S754_infinity s => sign_column space s ++ "inf"
  | S754_zero s => sign_column space s ++ fixed prec 0
  | S754_finite s m e => sign_column space s ++ fixed prec (scaled prec m e)
  end.

End Flt.
Import Flt.

(** ** Exceptions, results and the interpreter's state *)

Inductive exn : Type :=
| ValueError
| TypeError
| OSError
| KeyError
| IndexError
| StatisticsError
| SystemExit (status : string + Z).

Inductive res (A : Type) : Type :=
| Ok (a : A)
| Raise (e : exn).
Arguments Ok {A} a.
Arguments Raise {A} e.

#[global] Instance res_ret : MRet res := λ A, @Ok A.
#[global] Instance res_bind : MBind res := λ A B f m,
  match m with
  | Ok a => f a
  | Raise e => Raise e
  end.

(** An option read as a result: [None] raises [e]. *)
Definition or_raise {A : Type} (e : exn) (o : option A) : res A :=
  match o with
  | Some a => Ok a
  | None => Raise e
  end.

(** [l[i]] on a list, for [0 <= i]. *)
Definition getitem {A : Type} (l : list A) (i : nat) : res A :=
  or_raise IndexError (l !! i).

(** What a run leaves behind: the lines printed on standard output and
    the files written, each with its whole text, latest last. *)
Record world : Type := World {
  stdout : list string;
  written : list (string * string)
}.

Definition world0 : world := World [] [].

(** A statement of [main]: it may print, write and raise. *)
Definition M (A : Type) : Type := world → world * res A.

#[global] Instance M_ret : MRet M := λ A a w, (w, Ok a).
#[global] Instance M_bind : MBind M := λ A B f m w,
  match m w with
  | (w', Ok a) => f a w'
  | (w', Raise e) => (w', Raise e)
  end.

Definition lift {A : Type} (r : res A) : M A := λ w, (w, r).
Definition raise {A : Type} (e : exn) : M A := lift (Raise e).

(** [print(s)] *)
Definition print (s : string) : M unit :=
  λ w, (World (stdout w ++ [s]) (written w), Ok tt).

(** [sys.exit(msg)]: raises [SystemExit(msg)]. *)
Definition sys_exit {A : Type} (msg : string) : M A :=
  raise (SystemExit (inl msg)).

(** The status the process ends with: an uncaught exception ends it with
    1, as does [SystemExit] with a message; [SystemExit(n)] ends it with
    [n]. *)
Definition exit_status {A : Type} (r : res A) : Z :=
  match r with
  | Ok _ => 0
  | Raise (SystemExit (inr n)) => n
  | Raise _ => 1
  end.

(** The text a fatal run shows its user: the argument of [sys.exit] goes
    to standard error as it is; any other exception shows a traceback,
    not a message of the program. *)
Definition user_message {A : Type} (r : res A) : option string :=
  match r with
  | Raise (SystemExit (inl msg)) => Some msg
  | _ => None
  end.

(** The files a run reads: the lines of each readable path, as iterating
    over the open file yields them, and the paths that can be opened for
    writing. *)
Record filesystem : Type := Filesystem {
  fs_lines : string → option (list string);
  fs_writable : string → bool
}.

(** [open(path)] for reading; [open(None)] is a [TypeError]. *)
Definition open_read (fs : filesystem) (path : option string) : res (list string) :=
  match path with
  | None => Raise TypeError
  | Some p => or_raise OSError (fs_lines fs p)
  end.

(** [with open(path, 'w') as f: f.write(text)] *)
Definition write_file (fs : filesystem) (path text : string) : M unit :=
  λ w, if fs_writable fs path
       then (World (stdout w) (written w ++ [(path, text)]), Ok tt)
       else (w, Raise OSError).

(** ** [math.cos] and [math.sin] over the C library *)

(** [math_1] of CPython's [mathmodule.c], through which [math.cos] and
    [math.sin] call the C library: a result that is not a number for an
    argument that is one, or an infinite result for a finite argument,
    is a [ValueError] (math domain error).  Its last test, of [errno]
    with a finite result, finds nothing for a cosine or a sine. *)
Definition math_1 (func : float → float) (x : float) : res float :=
  let r := func x in
  if is_nan r && negb (is_nan x) then Raise ValueError
  else if is_infinite r && is_finite x then Raise ValueError
  else Ok r.

(** ** The interpreter's functions that are taken as given *)

Class Builtins : Type := {
  (** [int(s)]; [None] is a [ValueError]. *)
  py_int : string → option Z;
  (** [float(s)]; [None] is a [ValueError]. *)
  py_float : string → option float;
  (** [str(x)] of a float, as an f-string field without a format. *)
  float_str : float → string;
  (** [sorted(data)] on a list of floats. *)
  py_sorted : list float → list float;
  (** [cos] and [sin] of the C library, which [math.cos] and [math.sin]
      call through [math_1], and the [atan2] of [math.atan2]. *)
  math_cos : float → float;
  math_sin : float → float;
  math_atan2 : float → float → float;
  (** [sorted] returns its data rearranged, *)
  py_sorted_perm : ∀ l, py_sorted l ≡ₚ l;
  (** in ascending order when none of them is a NaN. *)
  py_sorted_ordered : ∀ l,
    Forall (λ x, is_nan x = false) l → StronglySorted float_le (py_sorted l);
  (** [cos] and [sin] of an infinity are not a number (C99, F.9.1). *)
  math_cos_inf : ∀ x, is_infinite x = true → is_nan (math_cos x) = true;
  math_sin_inf : ∀ x, is_infinite x = true → is_nan (math_sin x) = true
}.

(** ** The program *)

(** A record of an [.aln] file: [(rot, tx, ty, tilt)]. *)
Definition aln_record : Type := float * float * float * float.

(** An entry of an [.xf] file: [(rot, dx, dy)]. *)
Definition xf_entry : Type := float * float * float.

(** [not line or line.startswith('#')] *)
Definition is_skipped (line : string) : bool :=
  match line with
  | EmptyString => true
  | _ => startswith "#" line
  end.

(** [argparse]'s view of a command line made of the program's own
    options, without [-h] and without stray arguments: the value of each
    option that was given. *)
Record argv : Type := Argv {
  arg_aln1 : option string;
  arg_xf1 : option string;
  arg_aln2 : option string;
  arg_xf2 : option string;
  arg_out : option string;
  arg_tilt_cutoff : option string;
  arg_flip_z : bool
}.

(** The namespace [parse_args] returns. *)
Record namespace : Type := Namespace {
  aln1 : option string;
  xf1 : option string;
  aln2 : option string;
  xf2 : option string;
  out : string;
  tilt_cutoff : float;
  flip_z : bool
}.

(** Truth value of an option's value: [None] and [''] are false. *)
Definition truthy (o : option string) : bool :=
  match o with
  | Some (String _ _) => true
  | _ => false
  end.

Section Program.
Context {rt : Builtins}.

(** The body of [parse_aln]'s [try]: [None] is the [ValueError] of
    [int] or [float].  The caller has checked [len(parts) >= 5]. *)
Definition aln_fields (parts : list string) : option (Z * aln_record) :=
  match parts with
  | p0 :: p1 :: p2 :: p3 :: p4 :: _ =>
      sec ← py_int p0;
      rot ← py_float p1;
      tx ← py_float p2;
      ty ← py_float p3;
      tilt ← py_float p4;
      Some (sec, (rot, tx, ty, tilt))
  | _ => None
  end.

(** The loop of [parse_aln] over the lines of the file, from the
    dictionary [d] built so far; both [break]s return [d]. *)
Fixpoint parse_aln_lines (lines : list string) (d : gmap Z aln_record)
  : gmap Z aln_record :=
  match lines with
  | [] => d
  | line :: rest =>
      let line := strip line in
      if is_skipped line then parse_aln_lines rest d
      else
        let parts := split line in
        if (length parts <? 5)%nat then d
        else match aln_fields parts with
             | None => d
             | Some (sec, r) => parse_aln_lines rest (<[sec := r]> d)
             end
  end.

Definition parse_aln (fs : filesystem) (path : option string)
  : res (gmap Z aln_record) :=
  lines ← open_read fs path;
  Ok (parse_aln_lines lines ∅).

(** [a11, a12, a21, a22, dx, dy = map(float, vals[:6])] and the entry
    made of them; a wrong number of values to unpack is a [ValueError]
    as well. *)
Definition xf_fields (vals : list string) : res xf_entry :=
  fields ← or_raise ValueError (mapM py_float (take 6 vals));
  match fields with
  | [a11; a12; a21; a22; dx; dy] => Ok (degrees (math_atan2 a21 a11), dx, dy)
  | _ => Raise ValueError
  end.

(** The loop of [parse_xf], from the list [entries] built so far. *)
Fixpoint parse_xf_lines (lines : list string) (entries : list xf_entry)
  : res (list xf_entry) :=
  match lines with
  | [] => Ok entries
  | line :: rest =>
      let line := strip line in
      if is_skipped line then parse_xf_lines rest entries
      else
        let vals := split line in
        if (length vals <? 6)%nat then parse_xf_lines rest entries
        else
          e ← xf_fields vals;
          parse_xf_lines rest (entries ++ [e])
  end.

Definition parse_xf (fs : filesystem) (path : option string)
  : res (list xf_entry) :=
  lines ← open_read fs path;
  parse_xf_lines lines [].

(** [math.cos] and [math.sin] *)
Definition py_cos (x : float) : res float := math_1 math_cos x.
Definition py_sin (x : float) : res float := math_1 math_sin x.

(** The list [lines] of [build_transform], from the cosine and the sine:
    the three rows of the matrix. *)
Definition transform_lines (c s dX dY : float) (flip_z : bool) : list string :=
  let zsign := if flip_z then (-1)%float else 1%float in
  let f := format_f true 6 in
  [ f c ++ " " ++ f (- s)%float ++ "  0.000000 " ++ f dX;
    f s ++ " " ++ f c ++ "  0.000000 " ++ f dY;
    "0.000000  0.000000 " ++ f zsign ++ "  0.000000" ].

Definition build_transform (dR dX dY : float) (flip_z : bool) : res string :=
  let theta := radians dR in
  c ← py_cos theta;
  s ← py_sin theta;
  Ok (join nl (transform_lines c s dX dY flip_z) ++ nl).

(** [statistics.median] *)
Definition median (data : list float) : res float :=
  let data := py_sorted data in
  let n := length data in
  if (n =? 0)%nat then Raise StatisticsError
  else if (n mod 2 =? 1)%nat then getitem data (n / 2)
  else
    let i := (n / 2)%nat in
    a ← getitem data (i - 1);
    b ← getitem data i;
    Ok ((a + b) / 2)%float.

(** [argparse] on such a command line: one of [--aln1] and [--xf1], one
    of [--aln2] and [--xf2], [--out], and a float for [--tilt-cutoff];
    without one of them the process ends with status 2. *)
Definition usage_error {A : Type} : res A := Raise (SystemExit (inr 2%Z)).

Definition exactly_one (a b : option string) : bool :=
  xorb (bool_decide (is_Some a)) (bool_decide (is_Some b)).

Definition parse_args (a : argv) : res namespace :=
  if negb (exactly_one (arg_aln1 a) (arg_xf1 a)) then usage_error
  else if negb (exactly_one (arg_aln2 a) (arg_xf2 a)) then usage_error
  else
    match arg_out a with
    | None => usage_error
    | Some o =>
        match arg_tilt_cutoff a with
        | None =>
            Ok (Namespace (arg_aln1 a) (arg_xf1 a) (arg_aln2 a) (arg_xf2 a)
                          o 5%float (arg_flip_z a))
        | Some t =>
            match py_float t with
            | None => usage_error
            | Some c =>
                Ok (Namespace (arg_aln1 a) (arg_xf1 a) (arg_aln2 a) (arg_xf2 a)
                              o c (arg_flip_z a))
            end
        end
    end.

(** [d[sec]] *)
Definition dict_get (d : gmap Z aln_record) (sec : Z) : res aln_record :=
  or_raise KeyError (d !! sec).

(** The loop over [secs] in [.aln] mode, from the three lists built so
    far. *)
Fixpoint aln_deltas (d1 d2 : gmap Z aln_record) (cutoff : float)
    (secs : list Z) (acc : list float * list float * list float)
  : res (list float * list float * list float) :=
  match secs with
  | [] => Ok acc
  | sec :: rest =>
      '(rot1, tx1, ty1, tilt1) ← dict_get d1 sec;
      '(rot2, tx2, ty2, tilt2) ← dict_get d2 sec;
      let '(drots, dtxs, dtys) := acc in
      if (abs tilt1 <=? cutoff)%float
      then aln_deltas d1 d2 cutoff rest
             ((drots ++ [(rot2 - rot1)%float])%list,
              (dtxs ++ [(tx2 - tx1)%float])%list,
              (dtys ++ [(ty2 - ty1)%float])%list)
      else aln_deltas d1 d2 cutoff rest acc
  end.

Definition msg_no_common : string :=
  "❌ No common tilt indices in the two .aln files".

Definition msg_no_entries (cutoff : float) : string :=
  "❌ No entries within ±" ++ float_str cutoff ++ "° of zero‐tilt".

Definition msg_no_xf : string :=
  "❌ Could not parse any entries from one of the .xf files".

Definition msg_lengths (n : nat) : string :=
  "⚠️  Different lengths: using first " ++ decimal (Z.of_nat n)
  ++ " entries of each".

(** [sorted(set(d1) & set(d2))] *)
Definition common_secs (d1 d2 : gmap Z aln_record) : list Z :=
  merge_sort Z.le (elements (dom d1 ∩ dom d2)).

(** [.aln] mode, once both files are parsed. *)
Definition aln_estimate (d1 d2 : gmap Z aln_record) (cutoff : float)
  : M (float * float * float) :=
  let secs := common_secs d1 d2 in
  match secs with
  | [] => sys_exit msg_no_common
  | _ =>
      '(drots, dtxs, dtys) ← lift (aln_deltas d1 d2 cutoff secs ([], [], []));
      match drots with
      | [] => sys_exit (msg_no_entries cutoff)
      | _ =>
          dR ← lift (median drots);
          dX ← lift (median dtxs);
          dY ← lift (median dtys);
          mret (dR, dX, dY)
      end
  end.

(** [[xf2[i][k] - xf1[i][k] for i in range(n)]] for the component [k]. *)
Definition xf_deltas (proj : xf_entry → float) (xf1 xf2 : list xf_entry)
    (n : nat) : res (list float) :=
  mapM (λ i, e2 ← getitem xf2 i;
             e1 ← getitem xf1 i;
             Ok (proj e2 - proj e1)%float) (seq 0 n).

Definition xf_rot (e : xf_entry) : float := e.1.1.
Definition xf_dx (e : xf_entry) : float := e.1.2.
Definition xf_dy (e : xf_entry) : float := e.2.

(** [.xf] mode, once both files are parsed. *)
Definition xf_estimate (xf1 xf2 : list xf_entry) : M (float * float * float) :=
  let n1 := length xf1 in
  let n2 := length xf2 in
  if (n1 =? 0)%nat || (n2 =? 0)%nat then sys_exit msg_no_xf
  else
    let n := (n1 `min` n2)%nat in
    _ ← (if negb (n1 =? n2)%nat then print (msg_lengths n) else mret tt);
    drots ← lift (xf_deltas xf_rot xf1 xf2 n);
    dtxs ← lift (xf_deltas xf_dx xf1 xf2 n);
    dtys ← lift (xf_deltas xf_dy xf1 xf2 n);
    dR ← lift (median drots);
    dX ← lift (median dtxs);
    dY ← lift (median dtys);
    mret (dR, dX, dY).

Definition py_bool (b : bool) : string := if b then "True" else "False".

Definition msg_wrote (out : string) : string :=
  "✅ Wrote rigid transform to " ++ out.

Definition msg_summary (dR dX dY : float) (flip : bool) : string :=
  "   Δrotation = " ++ format_f false 3 dR ++ "°,  ΔX = "
  ++ format_f false 3 dX ++ "px,  ΔY = " ++ format_f false 3 dY
  ++ "px,  flip-Z = " ++ py_bool flip.

(** The estimate of [main], by the mode its first test selects. *)
Definition estimate (fs : filesystem) (args : namespace)
  : M (float * float * float) :=
  if truthy (aln1 args) && truthy (aln2 args) then
    d1 ← lift (parse_aln fs (aln1 args));
    d2 ← lift (parse_aln fs (aln2 args));
    aln_estimate d1 d2 (tilt_cutoff args)
  else
    e1 ← lift (parse_xf fs (xf1 args));
    e2 ← lift (parse_xf fs (xf2 args));
    xf_estimate e1 e2.

Definition main (fs : filesystem) (a : argv) : M unit :=
  args ← lift (parse_args a);
  '(dR, dX, dY) ← estimate fs args;
  xf_text ← lift (build_transform dR dX dY (flip_z args));
  _ ← write_file fs (out args) xf_text;
  _ ← print (msg_wrote (out args));
  print (msg_summary dR dX dY (flip_z args)).

End Program.

(** ** A runtime to run the program on examples

    Plain decimal literals for [int] and [float] (an optional sign, digits
    and, for a float, an optional fraction), every other string being a
    [ValueError]; the correctly rounded value of each literal; one decimal
    for [str]; for [sorted] a stable insertion sort, which is [sorted]
    on data without a NaN; and for the three functions of the C library
    the leading terms of their series at the origin, which are exact
    there and, for the cosine and the sine, not a number at an
    infinity. *)
Module Lit.

Local Open Scope Z_scope.

Fixpoint digits_value (s : string) (acc : Z) : option Z :=
  match s with
  | EmptyString => Some acc
  | String c s' =>
      if is_digit c
      then digits_value s' (10 * acc + (Z.of_N (N_of_ascii c) - 48))
      else None
  end.

Definition split_sign (s : string) : bool * string :=
  match s with
  | String "-" r => (true, r)
  | String "+" r => (false, r)
  | _ => (false, s)
  end.

Definition int_literal (s : string) : option Z :=
  let '(neg, r) := split_sign s in
  match r with
  | EmptyString => None
  | _ => v ← digits_value r 0; Some (if neg then - v else v)
  end.

(** [num / den] for [0 <= num] and [0 < den], rounded to the nearest
    binary64, ties to even: a quotient of at least 64 bits with a sticky
    bit under it, rounded once. *)
Definition float_of_ratio (neg : bool) (num den : Z) : float :=
  let s := Z.max 0 (64 + Z.log2 den - Z.log2 num) in
  let q := (num * 2 ^ s) / den in
  let sticky := if (num * 2 ^ s) mod den =? 0 then 0 else 1 in
  let m := 2 * q + sticky in
  SF2Prim (binary_normalize prec emax (if neg then - m else m) (- s - 1) neg).

Definition float_literal (s : string) : option float :=
  let '(neg, r) := split_sign s in
  let '(ip, fp) := cut_dot r in
  let fp := default EmptyString fp in
  match (ip ++ fp)%string with
  | EmptyString => None
  | ds =>
      v ← digits_value ds 0;
      Some (float_of_ratio neg v (10 ^ Z.of_nat (String.length fp)))
  end.

End Lit.

(** A stable insertion sort, by [<] as [sorted] compares. *)
Fixpoint insort (x : float) (l : list float) : list float :=
  match l with
  | [] => [x]
  | y :: l' => if (y <? x)%float then y :: insort x l' else x :: l
  end.

Fixpoint stable_sort (l : list float) : list float :=
  match l with
  | [] => []
  | x :: l' => insort x (stable_sort l')
  end.

(** The leading terms of the series of the cosine and the sine. *)
Definition series_cos (x : float) : float :=
  (1 - x * x / 2 + x * x * x * x / 24)%float.

Definition series_sin (x : float) : float := (x - x * x * x / 6)%float.

(** ** Vocabulary of the properties *)

Definition aln_rot (r : aln_record) : float := r.1.1.1.
Definition aln_tx (r : aln_record) : float := r.1.1.2.
Definition aln_ty (r : aln_record) : float := r.1.2.
Definition aln_tilt (r : aln_record) : float := r.2.

(** A record without its tilt. *)
Definition forget_tilt (r : aln_record) : float * float * float := r.1.

Definition is_none {A : Type} (o : option A) : bool :=
  match o with
  | None => true
  | Some _ => false
  end.

(** A number in fixed notation with six decimals: digits, a dot and six
    digits. *)
Definition six_decimals (tok : string) : bool :=
  match cut_dot tok with
  | (ip, Some fp) =>
      negb (bool_decide (ip = EmptyString)) && all_chars is_digit ip
      && bool_decide (String.length fp = 6%nat) && all_chars is_digit fp
  | (_, None) => false
  end.

(** A field of the output that renders [x] with six decimals behind a
    sign column: a blank when the sign bit of [x] is clear, [-] when it
    is set. *)
Definition sign_aligned (x : float) (field : string) : bool :=
  match field with
  | String c body =>
      bool_decide (c = if sign_bit x then "-"%char else " "%char)
      && six_decimals body
  | EmptyString => false
  end.

(** What [format_f] prints behind the sign column. *)
Definition magnitude (prec : nat) (x : float) : string :=
  match Prim2SF x with
  | S754_nan => "nan"
  | S754_infinity _ => "inf"
  | S754_zero _ => fixed prec 0
  | S754_finite _ m e => fixed prec (scaled prec m e)
  end.


(** A text of lines, each ended by a newline. *)
Definition unlines (rows : list string) : string :=
  foldr (λ r acc, r ++ nl ++ acc) EmptyString rows.

Section Vocabulary.
Context {rt : Builtins}.


(** A line of an [.aln] file that is neither blank nor a comment and has
    fewer than five fields, or a field 0 that is no integer, or one of the
    fields 1 to 4 that is no float. *)
Definition aln_malformed (line : string) : bool :=
  let l := strip line in
  let parts := split l in
  negb (is_skipped l)
  && ((length parts <? 5)%nat
      || match parts !! 0%nat with
         | Some p => is_none (py_int p)
         | None => false
         end
      || existsb (λ p, is_none (py_float p)) (take 4 (drop 1 parts))).

(** The line is neither blank nor a comment, and its first five fields
    are the integer [sec] and the floats [rot], [tx], [ty] and [tilt] of
    the record [r]. *)
Definition aln_line_reads (line : string) (sec : Z) (r : aln_record) : Prop :=
  is_skipped (strip line) = false
  ∧ ∃ p0 p1 p2 p3 p4 more,
      split (strip line) = p0 :: p1 :: p2 :: p3 :: p4 :: more
      ∧ py_int p0 = Some sec
      ∧ py_float p1 = Some (aln_rot r) ∧ py_float p2 = Some (aln_tx r)
      ∧ py_float p3 = Some (aln_ty r) ∧ py_float p4 = Some (aln_tilt r).

(** The record a line of an [.aln] file stands for, if it is neither
    blank, nor a comment, nor malformed. *)
Definition aln_line_record (line : string) : option (Z * aln_record) :=
  let l := strip line in
  if is_skipped l then None else aln_fields (split l).

Definition aln_records (lines : list string) : list (Z * aln_record) :=
  omap aln_line_record lines.

(** The dictionary made of a list of records, each assigned in turn. *)
Definition dict_of (records : list (Z * aln_record)) (d : gmap Z aln_record)
  : gmap Z aln_record :=
  foldl (λ d kr, <[kr.1 := kr.2]> d) d records.

(** A line of an [.xf] file that is blank, a comment, or has fewer than
    six fields. *)
Definition xf_skipped (line : string) : bool :=
  let l := strip line in
  is_skipped l || (length (split l) <? 6)%nat.

(** One of the first six fields of the line is no float. *)
Definition xf_bad_field (line : string) : bool :=
  existsb (λ p, is_none (py_float p)) (take 6 (split (strip line))).

(** The entries a line of an [.xf] file adds: none when it is skipped
    (or has a field that is no float), and otherwise the one made of the
    numbers [a11 a12 a21 a22 dx dy] of its first six fields. *)
Definition xf_line_entries (line : string) : list xf_entry :=
  if xf_skipped line then []
  else match mapM py_float (take 6 (split (strip line))) with
       | Some [a11; a12; a21; a22; dx; dy] =>
           [(degrees (math_atan2 a21 a11), dx, dy)]
       | _ => []
       end.

(** The first file's record of section [k] is within the cutoff. *)
Definition within_cutoff (d1 : gmap Z aln_record) (cutoff : float) (k : Z)
  : bool :=
  match d1 !! k with
  | Some r1 => (abs (aln_tilt r1) <=? cutoff)%float
  | None => false
  end.

(** The sections the estimate is taken over: common to both
    dictionaries and, in the first, within the cutoff; ascending. *)
Definition selected (d1 d2 : gmap Z aln_record) (cutoff : float) : list Z :=
  filter (λ k, within_cutoff d1 cutoff k = true) (common_secs d1 d2).

(** The difference of one component between the records of section [k]
    in the second and in the first dictionary. *)
Definition delta (proj : aln_record → float) (d1 d2 : gmap Z aln_record)
    (k : Z) : option float :=
  r1 ← d1 !! k; r2 ← d2 !! k; Some (proj r2 - proj r1)%float.

(** The difference of one component between two entries of [.xf] files. *)
Definition xf_delta (proj : xf_entry → float) (e2 e1 : xf_entry) : float :=
  (proj e2 - proj e1)%float.

(** The fatal conditions of the estimate, each with the message its run
    ends with: no section common to the two [.aln] files; common
    sections, none of them within the cutoff; an [.xf] file without an
    entry. *)
Inductive fatal_condition (fs : filesystem) (args : namespace)
  : string → Prop :=
| no_common_sections (d1 d2 : gmap Z aln_record) :
    truthy (aln1 args) && truthy (aln2 args) = true →
    parse_aln fs (aln1 args) = Ok d1 →
    parse_aln fs (aln2 args) = Ok d2 →
    dom d1 ∩ dom d2 = ∅ →
    fatal_condition fs args msg_no_common
| none_within_cutoff (d1 d2 : gmap Z aln_record) :
    truthy (aln1 args) && truthy (aln2 args) = true →
    parse_aln fs (aln1 args) = Ok d1 →
    parse_aln fs (aln2 args) = Ok d2 →
    dom d1 ∩ dom d2 ≠ ∅ →
    (∀ k, k ∈ dom d1 ∩ dom d2 →
          within_cutoff d1 (tilt_cutoff args) k = false) →
    fatal_condition fs args (msg_no_entries (tilt_cutoff args))
| no_xf_entries (e1 e2 : list xf_entry) :
    truthy (aln1 args) && truthy (aln2 args) = false →
    parse_xf fs (xf1 args) = Ok e1 →
    parse_xf fs (xf2 args) = Ok e2 →
    e1 = [] ∨ e2 = [] →
    fatal_condition fs args msg_no_xf.

End Vocabulary.

(** ** Example inputs *)

(** A header line of an [.xf] file: a comment of seven fields. *)
Definition xf_header_line : string := "# a11 a12 a21 a22 dx dy".

(** Two [.aln] files of four sections each; with the cutoff of 5 degrees
    the sections 0, 1 and 2 are kept. *)
Definition aln_a : list string :=
  [ "# section rot tx ty tilt";
    "0 -85.5 12.25 -3.5 -2.0";
    "1 -85.25 10.5 -3.25 1.0";
    "";
    "2 -85.0 11 -2 4.0";
    "3 -84.75 9.5 -1.5 7.0" ].

Definition aln_b : list string :=
  [ "0 -84.5 14.25 -1.5 -2.5";
    "1 -84.75 13.5 -2.25 0.5";
    "2 -83.0 12 1 3.5";
    "3 -80.75 0.5 -1.5 6.5" ].

(** A line of three fields, and a line after it. *)
Definition aln_short_line : string := "4 -84.5 1.0".
Definition aln_trailer : list string := ["5 0 0 0 0"].

(** An [.xf] file with a header, a blank line and a short line among its
    entries; one whose fifth field is no number; one without entries. *)
Definition xf_a : list string :=
  [ xf_header_line; ""; "1 0 0 1 10 20"; "1 2 3 4"; "0 -1 1 0 -3.5 2.25" ].

Definition xf_bad : list string :=
  [ "1 0 0 1 10 20"; "1 0 0 1 ten 20" ].

Definition xf_empty : list string := [ "# no entries"; "1 2 3" ].

Definition example_fs : filesystem :=
  Filesystem
    (λ p, if String.eqb p "a.xf" then Some xf_a
          else if String.eqb p "empty.xf" then Some xf_empty
          else if String.eqb p "bad.xf" then Some xf_bad
          else None)
    (λ _, true).

Definition xf_argv (p q : string) : argv :=
  Argv None (Some p) None (Some q) (Some "out.xf") None false.

Definition xf_namespace (p q : string) : namespace :=
  Namespace None (Some p) None (Some q) "out.xf" 5%float false.

(** The text of a transform: no rotation, a shift by (1.25, -3) and a
    flip of Z. *)
Definition example_transform : string :=
  unlines [ " 1.000000 -0.000000  0.000000  1.250000";
            " 0.000000  1.000000  0.000000 -3.000000";
            "0.000000  0.000000 -1.000000  0.000000" ].


(** An [.aln] path for the source tomogram and an [.xf] path for the
    target. *)
Definition mixed_argv (p q o : string) : argv :=
  Argv (Some p) None None (Some q) (Some o) None false.

(** ** Vocabulary and inputs of the further properties *)

(** The exceptions of the lookups and of the median, which guard the
    program's own indexing. *)
Definition internal_error {A : Type} (r : res A) : bool :=
  match r with
  | Raise KeyError | Raise IndexError | Raise StatisticsError => true
  | _ => false
  end.

(** The exceptions of opening a file and of converting a field. *)
Definition io_or_value_error (e : exn) : bool :=
  match e with
  | TypeError | OSError | ValueError => true
  | _ => false
  end.

Section FurtherVocabulary.
Context {rt : Builtins}.

(** The last two lines a successful run prints. *)
Definition report (args : namespace) (dR dX dY : float) : list string :=
  [ msg_wrote (out args); msg_summary dR dX dY (flip_z args) ].

End FurtherVocabulary.

(** An [.aln] file in which section 1 occurs twice. *)
Definition aln_repeated : list string :=
  [ "1 10 20 30 0"; "2 1 2 3 0"; "1 11 21 31 0.5" ].

(** An [.aln] file with one section within 5 degrees. *)
Definition aln_single_a : list string := [ "7 1.5 2 3 0"; "8 0 0 0 30" ].
Definition aln_single_b : list string := [ "7 2 4.5 2 0"; "8 9 9 9 30" ].

(** Two lines of an [.xf] file that differ in [a12], [a22] and in what
    follows the sixth field. *)
Definition xf_line_a : string := "0 -1 1 0 -3.5 2.25".
Definition xf_line_b : string := "0 7 1 8 -3.5 2.25 trailing 9".

(** Two [.xf] files of plain shifts, of two and of three entries. *)
Definition xf_c : list string := [ "1 0 0 1 10 20"; "1 0 0 1 12 20" ].
Definition xf_d : list string :=
  [ "1 0 0 1 11 22"; "1 0 0 1 15 26"; "1 0 0 1 0 0" ].

Definition entries_c : list xf_entry := [ (0, 10, 20)%float; (0, 12, 20)%float ].
Definition entries_d : list xf_entry :=
  [ (0, 11, 22)%float; (0, 15, 26)%float; (0, 0, 0)%float ].

Definition example_files : filesystem :=
  Filesystem
    (λ p, if String.eqb p "a.aln" then Some aln_a
          else if String.eqb p "b.aln" then Some aln_b
          else if String.eqb p "c.xf" then Some xf_c
          else if String.eqb p "d.xf" then Some xf_d
          else None)
    (λ p, negb (String.eqb p "/readonly/out.xf")).

(** The transforms of the estimates of these files: of [(1, 2, 2)]
    with a flip of Z, the cosine and the sine as the example runtime has
    them, and of [(0, 2, 4)]. *)
Definition example_aln_transform : string :=
  unlines [ " 0.999848 -0.017452  0.000000  2.000000";
            " 0.017452  0.999848  0.000000  2.000000";
            "0.000000  0.000000 -1.000000  0.000000" ].

Definition example_xf_transform : string :=
  unlines [ " 1.000000 -0.000000  0.000000  2.000000";
            " 0.000000  1.000000  0.000000  4.000000";
            "0.000000  0.000000  1.000000  0.000000" ].

(** An [.xf] path for the source tomogram and an [.aln] path for the
    target. *)
Definition reverse_mixed_argv (p q o : string) : argv :=
  Argv None (Some p) (Some q) None (Some o) None false.

Definition reverse_mixed_namespace (p q o : string) : namespace :=
  Namespace None (Some p) (Some q) None o 5%float false.

Definition aln_argv (p q o : string) : argv :=
  Argv (Some p) None (Some q) None (Some o) None true.

Definition aln_namespace (p q o : string) : namespace :=
  Namespace (Some p) None (Some q) None o 5%float true.

Definition xf_argv_out (p q o : string) : argv :=
  Argv None (Some p) None (Some q) (Some o) None false.

Definition xf_namespace_out (p q o : string) : namespace :=
  Namespace None (Some p) None (Some q) o 5%float false.

(** * Properties *)

Local Open Scope list_scope.

(** One step of [++] on strings, which [simpl] leaves alone. *)
Ltac string_step :=
  repeat match goal with
  | |- context [(String ?c ?a ++ ?b)%string] =>
      change (String c a ++ b)%string with (String c (a ++ b)%string)
  | |- context [(EmptyString ++ ?b)%string] =>
      change (EmptyString ++ b)%string with b
  end.

(** ** The order of the floats *)

Ltac sf_cmp :=
  repeat match goal with
  | |- context [Pos.compare_cont Eq ?a ?b] =>
      change (Pos.compare_cont Eq a b) with (Pos.compare a b)
  | H : context [Pos.compare_cont Eq ?a ?b] |- _ =>
      change (Pos.compare_cont Eq a b) with (Pos.compare a b) in H
  end;
  repeat match goal with
  | H : context [Z.compare ?a ?b] |- _ =>
      destruct (Z.compare_spec a b); simpl in H; try discriminate
  | |- context [Z.compare ?a ?b] =>
      destruct (Z.compare_spec a b); simpl; try reflexivity
  | H : context [Pos.compare ?a ?b] |- _ =>
      destruct (Pos.compare_spec a b); simpl in H; try discriminate
  | |- context [Pos.compare ?a ?b] =>
      destruct (Pos.compare_spec a b); simpl; try reflexivity
  end; try lia.

Lemma SFleb_trans (f1 f2 f3 : spec_float) :
  SFleb f1 f2 = true → SFleb f2 f3 = true → SFleb f1 f3 = true.
Proof.
  unfold SFleb, SFcompare.
  destruct f1 as [[]|[]| |[] m1 e1], f2 as [[]|[]| |[] m2 e2],
    f3 as [[]|[]| |[] m3 e3];
    simpl; try reflexivity; try discriminate; intros H12 H23; sf_cmp.
Qed.

Lemma SFleb_total (f1 f2 : spec_float) :
  f1 ≠ S754_nan → f2 ≠ S754_nan → SFltb f2 f1 = false → SFleb f1 f2 = true.
Proof.
  unfold SFleb, SFltb, SFcompare.
  destruct f1 as [[]|[]| |[] m1 e1], f2 as [[]|[]| |[] m2 e2];
    simpl; try reflexivity; try discriminate; try congruence;
    intros _ _ H; sf_cmp.
Qed.

Lemma SFltb_leb (f1 f2 : spec_float) :
  SFltb f1 f2 = true → SFleb f1 f2 = true.
Proof. unfold SFleb, SFltb. destruct (SFcompare f1 f2) as [[]|]; congruence. Qed.

Lemma float_le_trans (x y z : float) :
  float_le x y → float_le y z → float_le x z.
Proof. unfold float_le. rewrite !leb_spec. apply SFleb_trans. Qed.

Lemma float_lt_le (x y : float) : (x <? y)%float = true → float_le x y.
Proof. unfold float_le. rewrite ltb_spec, leb_spec. apply SFltb_leb. Qed.

Lemma float_not_lt_le (x y : float) :
  is_nan x = false → is_nan y = false → (y <? x)%float = false → float_le x y.
Proof.
  unfold float_le, is_nan. rewrite ltb_spec, leb_spec. intros Hx Hy.
  apply SFleb_total; intros E; [rewrite E in Hx|rewrite E in Hy]; done.
Qed.

(** ** The stable sort sorts *)

Lemma insort_Permutation (x : float) (l : list float) :
  insort x l ≡ₚ x :: l.
Proof.
  induction l as [|y l IH]; simpl; [done|].
  destruct (y <? x)%float; [|done].
  by rewrite IH, Permutation_swap.
Qed.

Lemma stable_sort_Permutation (l : list float) : stable_sort l ≡ₚ l.
Proof.
  induction l as [|x l IH]; simpl; [done|].
  by rewrite insort_Permutation, IH.
Qed.

Lemma insort_StronglySorted (x : float) (l : list float) :
  is_nan x = false → Forall (λ y, is_nan y = false) l →
  StronglySorted float_le l → StronglySorted float_le (insort x l).
Proof.
  intros Hx Hl Hs. induction Hs as [|y l Hs IH Hy]; simpl.
  - by repeat constructor.
  - apply Forall_cons in Hl as [Hny Hl].
    destruct (y <? x)%float eqn:Hlt.
    + constructor; [by apply IH|].
      rewrite insort_Permutation. constructor; [by apply float_lt_le|done].
    + assert (float_le x y) as Hxy by by apply float_not_lt_le.
      constructor; [by constructor|]. constructor; [done|].
      eapply Forall_impl; [exact Hy|]. intros z Hz.
      by apply float_le_trans with y.
Qed.

Lemma stable_sort_StronglySorted (l : list float) :
  Forall (λ x, is_nan x = false) l → StronglySorted float_le (stable_sort l).
Proof.
  induction 1 as [|x l Hx Hl IH]; simpl; [constructor|].
  apply insort_StronglySorted; [done| |done].
  by rewrite stable_sort_Permutation.
Qed.

(** ** The example runtime *)

Lemma infinite_cases (x : float) :
  is_infinite x = true → x = infinity ∨ x = neg_infinity.
Proof.
  unfold is_infinite. intros Hx. rewrite <- (SF2Prim_Prim2SF x).
  destruct (Prim2SF x) as [|[]| |]; try done; [by right|by left].
Qed.

Lemma series_cos_inf (x : float) :
  is_infinite x = true → is_nan (series_cos x) = true.
Proof. intros Hx. by destruct (infinite_cases x Hx) as [-> | ->]. Qed.

Lemma series_sin_inf (x : float) :
  is_infinite x = true → is_nan (series_sin x) = true.
Proof. intros Hx. by destruct (infinite_cases x Hx) as [-> | ->]. Qed.

Definition example_runtime : Builtins := {|
  py_int := Lit.int_literal;
  py_float := Lit.float_literal;
  float_str := format_f false 1;
  py_sorted := stable_sort;
  math_cos := series_cos;
  math_sin := series_sin;
  math_atan2 := λ y x, (y / x)%float;
  py_sorted_perm := stable_sort_Permutation;
  py_sorted_ordered := stable_sort_StronglySorted;
  math_cos_inf := series_cos_inf;
  math_sin_inf := series_sin_inf
|}.

(** ** Dictionaries built by assignment *)

Lemma dict_of_list_to_map (l : list (Z * aln_record)) (d : gmap Z aln_record) :
  dict_of l d = list_to_map (reverse l) ∪ d.
Proof.
  revert d. induction l as [|[k r] l IH]; intros d; simpl.
  - by rewrite (left_id_L ∅ (∪)).
  - unfold dict_of in *. simpl. rewrite IH, reverse_cons, list_to_map_app. simpl.
    rewrite insert_empty, <- (assoc_L (∪)).
    by rewrite <- insert_union_singleton_l.
Qed.

Lemma dict_of_lookup_Some (l : list (Z * aln_record)) (k : Z) (r : aln_record) :
  dict_of l ∅ !! k = Some r → (k, r) ∈ l.
Proof.
  rewrite dict_of_list_to_map, (right_id_L ∅ (∪)). intros H.
  apply elem_of_list_to_map_2 in H. by apply elem_of_reverse.
Qed.

Lemma dict_of_lookup_is_Some (l : list (Z * aln_record)) (k : Z) (r : aln_record) :
  (k, r) ∈ l → is_Some (dict_of l ∅ !! k).
Proof.
  rewrite dict_of_list_to_map, (right_id_L ∅ (∪)). intros H.
  destruct (list_to_map (reverse l) !! k) as [x|] eqn:E; [by eexists|].
  apply not_elem_of_list_to_map in E. exfalso. apply E.
  rewrite fmap_reverse, elem_of_reverse. apply list_elem_of_fmap. by exists (k, r).
Qed.

Lemma dict_of_lookup_NoDup (l : list (Z * aln_record)) (k : Z) (r : aln_record) :
  NoDup l.*1 → (k, r) ∈ l → dict_of l ∅ !! k = Some r.
Proof.
  intros Hnd H. rewrite dict_of_list_to_map, (right_id_L ∅ (∪)).
  apply elem_of_list_to_map_1.
  - by rewrite fmap_reverse, reverse_Permutation.
  - by apply elem_of_reverse.
Qed.

Lemma dict_of_NoDup (l : list (Z * aln_record)) :
  NoDup l.*1 → dict_of l ∅ = list_to_map l.
Proof.
  intros Hnd. rewrite dict_of_list_to_map, (right_id_L ∅ (∪)).
  apply list_to_map_proper; [|apply reverse_Permutation].
  by rewrite fmap_reverse, reverse_Permutation.
Qed.

(** ** [parse_aln] *)

Section ParseAln.
Context {rt : Builtins}.

Lemma aln_fields_length (parts : list string) (x : Z * aln_record) :
  aln_fields parts = Some x → (length parts <? 5)%nat = false.
Proof.
  do 5 (destruct parts as [|? parts]; [discriminate|]). intros _.
  apply Nat.ltb_ge. simpl. lia.
Qed.

Lemma aln_fields_malformed (parts : list string) :
  (length parts <? 5)%nat = false →
  aln_fields parts = None ↔
  (match parts !! 0%nat with
   | Some p => is_none (py_int p)
   | None => false
   end
   || existsb (λ p, is_none (py_float p)) (take 4 (drop 1 parts))) = true.
Proof.
  intros Hlen. apply Nat.ltb_ge in Hlen.
  do 5 (destruct parts as [|? parts]; [simpl in Hlen; lia|]).
  simpl.
  destruct (py_int s) as [sec|]; simpl; [|done].
  destruct (py_float s0); simpl; [|done].
  destruct (py_float s1); simpl; [|done].
  destruct (py_float s2); simpl; [|done].
  destruct (py_float s3); simpl; [|done].
  split; discriminate.
Qed.

(** A line that is not malformed is skipped or stands for a record. *)
Lemma aln_not_malformed (line : string) :
  aln_malformed line = false →
  is_skipped (strip line) = true ∧ aln_line_record line = None
  ∨ ∃ kr, is_skipped (strip line) = false
          ∧ (length (split (strip line)) <? 5)%nat = false
          ∧ aln_fields (split (strip line)) = Some kr
          ∧ aln_line_record line = Some kr.
Proof.
  unfold aln_malformed, aln_line_record.
  destruct (is_skipped (strip line)) eqn:Hs; simpl; [by left|].
  destruct (length (split (strip line)) <? 5)%nat eqn:Hlen; simpl; [discriminate|].
  intros Hm. right.
  destruct (aln_fields (split (strip line))) as [kr|] eqn:Hf; [by exists kr|].
  apply aln_fields_malformed in Hf; [congruence|done].
Qed.

(** A malformed line ends the loop. *)
Lemma parse_aln_lines_malformed (bad : string) (post : list string)
    (d : gmap Z aln_record) :
  aln_malformed bad = true → parse_aln_lines (bad :: post) d = d.
Proof.
  unfold aln_malformed. simpl.
  destruct (is_skipped (strip bad)); simpl; [discriminate|].
  destruct (length (split (strip bad)) <? 5)%nat eqn:Hlen; simpl; [done|].
  intros Hm. apply aln_fields_malformed in Hm; [|done]. by rewrite Hm.
Qed.

(** Lines without a malformed one are all read, in order. *)
Lemma parse_aln_lines_app (pre rest : list string) (d : gmap Z aln_record) :
  Forall (λ l, aln_malformed l = false) pre →
  parse_aln_lines (pre ++ rest) d
  = parse_aln_lines rest (dict_of (aln_records pre) d).
Proof.
  intros Hpre. revert d. induction Hpre as [|l pre Hl _ IH]; intros d; [done|].
  simpl. unfold aln_records. simpl.
  destruct (aln_not_malformed l Hl) as [[Hs Hr]|(kr & Hs & Hlen & Hf & Hr)].
  - rewrite Hs, Hr. apply IH.
  - rewrite Hs, Hlen, Hf, Hr. destruct kr as [sec r]. simpl. apply IH.
Qed.

Lemma parse_aln_lines_well_formed (lines : list string) :
  Forall (λ l, aln_malformed l = false) lines →
  parse_aln_lines lines ∅ = dict_of (aln_records lines) ∅.
Proof.
  intros Hwf. rewrite <- (app_nil_r lines) at 1.
  by rewrite parse_aln_lines_app.
Qed.

Lemma parse_aln_lines_skip (line : string) (rest : list string)
    (d : gmap Z aln_record) :
  is_skipped (strip line) = true →
  parse_aln_lines (line :: rest) d = parse_aln_lines rest d.
Proof. intros Hs. simpl. by rewrite Hs. Qed.

Lemma parse_aln_lines_read (line : string) (rest : list string)
    (d : gmap Z aln_record) :
  is_skipped (strip line) = false →
  parse_aln_lines (line :: rest) d
  = if (length (split (strip line)) <? 5)%nat then d
    else match aln_fields (split (strip line)) with
         | None => d
         | Some (sec, r) => parse_aln_lines rest (<[sec := r]> d)
         end.
Proof. intros Hs. simpl. by rewrite Hs. Qed.

(** The record of a line is what the line reads. *)
Lemma aln_line_record_reads (line : string) (k : Z) (r : aln_record) :
  aln_line_record line = Some (k, r) ↔ aln_line_reads line k r.
Proof.
  unfold aln_line_record, aln_line_reads. split.
  - destruct (is_skipped (strip line)); [done|]. intros Hf. split; [done|].
    destruct (split (strip line)) as [|p0 [|p1 [|p2 [|p3 [|p4 more]]]]];
      try done.
    simpl in Hf.
    destruct (py_int p0) as [sec|] eqn:H0; simpl in Hf; [|done].
    destruct (py_float p1) as [rot|] eqn:H1; simpl in Hf; [|done].
    destruct (py_float p2) as [tx|] eqn:H2; simpl in Hf; [|done].
    destruct (py_float p3) as [ty|] eqn:H3; simpl in Hf; [|done].
    destruct (py_float p4) as [tilt|] eqn:H4; simpl in Hf; [|done].
    injection Hf as <- <-. by exists p0, p1, p2, p3, p4, more.
  - intros (Hs & p0 & p1 & p2 & p3 & p4 & more & Hsplit & H0 & H1 & H2
            & H3 & H4).
    rewrite Hs, Hsplit. simpl. rewrite H0, H1, H2, H3, H4. simpl.
    by destruct r as [[[rot tx] ty] tilt].
Qed.

(** The entry of a section after the loop over lines without a malformed
    one: the record of the last line that has the section or, without
    such a line, the entry there was before. *)
Lemma parse_aln_lines_lookup_last (pre : list string) (d : gmap Z aln_record)
    (k : Z) (r : aln_record) :
  Forall (λ l, aln_malformed l = false) pre →
  parse_aln_lines pre d !! k = Some r ↔
  (∃ before line after,
      pre = before ++ line :: after
      ∧ aln_line_record line = Some (k, r)
      ∧ Forall (λ l, ∀ r', aln_line_record l ≠ Some (k, r')) after)
  ∨ (d !! k = Some r
     ∧ Forall (λ l, ∀ r', aln_line_record l ≠ Some (k, r')) pre).
Proof.
  intros Hpre. revert d. induction Hpre as [|l pre Hl _ IH]; intros d.
  - simpl. split.
    + intros Hd. right. by split.
    + intros [(before & line & after & Heq & _)|[Hd _]]; [|done].
      by destruct before.
  - destruct (aln_not_malformed l Hl)
      as [[Hs Hr]|([sec rec] & Hs & Hlen & Hf & Hr)].
    + rewrite parse_aln_lines_skip by done. rewrite IH. split.
      * intros [(before & line & after & -> & Hrec & Hafter)|[Hd Hall]].
        -- left. by exists (l :: before), line, after.
        -- right. split; [done|]. constructor; [|done].
           intros r'. by rewrite Hr.
      * intros [(before & line & after & Heq & Hrec & Hafter)|[Hd Hall]].
        -- destruct before as [|x before]; simpl in Heq.
           ++ injection Heq as -> ->. congruence.
           ++ injection Heq as -> ->. left. by exists before, line, after.
        -- right. split; [done|]. by apply Forall_cons in Hall as [_ Hall].
    + rewrite parse_aln_lines_read, Hlen, Hf by done.
      rewrite IH. split.
      * intros [(before & line & after & -> & Hrec & Hafter)|[Hd Hall]].
        -- left. by exists (l :: before), line, after.
        -- destruct (decide (sec = k)) as [->|Hne].
           ++ rewrite lookup_insert_eq in Hd. injection Hd as ->.
              left. by exists [], l, pre.
           ++ rewrite lookup_insert_ne in Hd by done.
              right. split; [done|]. constructor; [|done].
              intros r'. rewrite Hr. congruence.
      * intros [(before & line & after & Heq & Hrec & Hafter)|[Hd Hall]].
        -- destruct before as [|x before]; simpl in Heq.
           ++ injection Heq as -> ->. rewrite Hr in Hrec.
              injection Hrec as -> ->. right.
              split; [apply lookup_insert_eq|done].
           ++ injection Heq as -> ->. left. by exists before, line, after.
        -- apply Forall_cons in Hall as [Hk Hall]. right. split; [|done].
           rewrite lookup_insert_ne; [done|].
           intros ->. by apply (Hk rec).
Qed.

End ParseAln.

(** C4: [parse_aln] stops at the first malformed line that is neither
    blank nor a comment.  With [pre] the lines before it, the dictionary
    returned is that of the file [pre] alone, whatever the malformed line
    and the lines after it hold, and its entries are exactly the records
    of the well-formed lines of [pre]: it has the record [r] at the
    section [k] exactly when a line of [pre] has the fields of [k] and
    [r] and no later line of [pre] has the section [k]. *)
Theorem parse_aln_stops_at_first_malformed {rt : Builtins}
    (pre post : list string) (bad : string) :
  Forall (λ l, aln_malformed l = false) pre →
  aln_malformed bad = true →
  parse_aln_lines (pre ++ bad :: post) ∅ = parse_aln_lines pre ∅
  ∧ (∀ fs path, fs_lines fs path = Some (pre ++ bad :: post) →
       parse_aln fs (Some path) = Ok (parse_aln_lines pre ∅))
  ∧ (∀ k r, parse_aln_lines (pre ++ bad :: post) ∅ !! k = Some r ↔
       ∃ before line after,
         pre = before ++ line :: after
         ∧ aln_line_reads line k r
         ∧ ∀ line' r', line' ∈ after → ¬ aln_line_reads line' k r').
Proof.
  intros Hpre Hbad.
  assert (parse_aln_lines (pre ++ bad :: post) ∅ = parse_aln_lines pre ∅)
    as Heq.
  { rewrite parse_aln_lines_app by done.
    rewrite parse_aln_lines_malformed by done.
    by rewrite parse_aln_lines_well_formed. }
  rewrite Heq. split_and!.
  - done.
  - intros fs path Hfs. unfold parse_aln, open_read. rewrite Hfs. simpl.
    by rewrite Heq.
  - intros k r. rewrite parse_aln_lines_lookup_last by done. split.
    + intros [(before & line & after & -> & Hrec & Hafter)|[Hd _]]; [|done].
      exists before, line, after. split_and!; [done|..].
      * by apply aln_line_record_reads.
      * intros line' r' Hin Hreads. apply aln_line_record_reads in Hreads.
        rewrite Forall_forall in Hafter. by apply (Hafter line' Hin r').
    + intros (before & line & after & -> & Hreads & Hafter). left.
      exists before, line, after. split_and!; [done|..].
      * by apply aln_line_record_reads.
      * apply Forall_forall. intros line' Hin r' Hrec.
        apply aln_line_record_reads in Hrec. by apply (Hafter line' r').
Qed.

(** ** [parse_xf] *)

Lemma existsb_is_none_mapM {A B : Type} (f : A → option B) (l : list A) :
  existsb (λ p, is_none (f p)) l = is_none (mapM f l).
Proof.
  induction l as [|x l IH]; simpl; [done|].
  destruct (f x); simpl; [|done]. rewrite IH.
  by destruct (mapM f l).
Qed.

Section ParseXf.
Context {rt : Builtins}.

Lemma xf_fields_bad (vals : list string) :
  existsb (λ p, is_none (py_float p)) (take 6 vals) = true →
  xf_fields vals = Raise ValueError.
Proof.
  rewrite existsb_is_none_mapM. unfold xf_fields.
  by destruct (mapM py_float (take 6 vals)).
Qed.

Lemma xf_fields_raises (vals : list string) (e : exn) :
  xf_fields vals = Raise e → e = ValueError.
Proof.
  unfold xf_fields. destruct (mapM py_float (take 6 vals)) as [fields|]; simpl.
  - do 6 (destruct fields as [|? fields]; [congruence|]).
    destruct fields; congruence.
  - congruence.
Qed.

(** The six numbers of a line that has six fields or more, all of them
    floats. *)
Lemma xf_fields_good (vals : list string) :
  (length vals <? 6)%nat = false →
  existsb (λ p, is_none (py_float p)) (take 6 vals) = false →
  ∃ a11 a12 a21 a22 dx dy,
    mapM py_float (take 6 vals) = Some [a11; a12; a21; a22; dx; dy]
    ∧ xf_fields vals = Ok (degrees (math_atan2 a21 a11), dx, dy).
Proof.
  intros Hlen. apply Nat.ltb_ge in Hlen.
  rewrite existsb_is_none_mapM. unfold xf_fields.
  destruct (mapM py_float (take 6 vals)) as [fields|] eqn:Hm; [intros _|done].
  apply length_mapM in Hm. rewrite length_take, Nat.min_l in Hm by done.
  do 6 (destruct fields as [|? fields]; [discriminate|]).
  destruct fields; [|discriminate].
  by do 6 eexists.
Qed.

Lemma xf_line_entries_skipped (line : string) :
  xf_skipped line = true → xf_line_entries line = [].
Proof. unfold xf_line_entries. by intros ->. Qed.

Lemma xf_skipped_false (line : string) :
  xf_skipped line = false →
  is_skipped (strip line) = false
  ∧ (length (split (strip line)) <? 6)%nat = false.
Proof. unfold xf_skipped. by intros [? ?]%orb_false_elim. Qed.

Lemma parse_xf_lines_skip (line : string) (rest : list string)
    (acc : list xf_entry) :
  xf_skipped line = true →
  parse_xf_lines (line :: rest) acc = parse_xf_lines rest acc.
Proof.
  unfold xf_skipped. simpl.
  destruct (is_skipped (strip line)); [done|]. simpl. by intros ->.
Qed.

Lemma parse_xf_lines_read (line : string) (rest : list string)
    (acc : list xf_entry) :
  xf_skipped line = false →
  parse_xf_lines (line :: rest) acc
  = xf_fields (split (strip line)) ≫= λ e, parse_xf_lines rest (acc ++ [e]).
Proof. intros [Hs Hlen]%xf_skipped_false. simpl. by rewrite Hs, Hlen. Qed.

Lemma parse_xf_lines_entries (lines : list string) (acc : list xf_entry) :
  Forall (λ l, xf_skipped l = false → xf_bad_field l = false) lines →
  parse_xf_lines lines acc = Ok (acc ++ (lines ≫= xf_line_entries)).
Proof.
  intros Hall. revert acc.
  induction Hall as [|l lines Hl _ IH]; intros acc.
  - simpl. by rewrite app_nil_r.
  - rewrite bind_cons. destruct (xf_skipped l) eqn:Hs.
    + rewrite parse_xf_lines_skip, xf_line_entries_skipped by done. apply IH.
    + rewrite parse_xf_lines_read by done.
      destruct (xf_skipped_false l Hs) as [_ Hlen].
      destruct (xf_fields_good _ Hlen (Hl eq_refl))
        as (a11 & a12 & a21 & a22 & dx & dy & Hm & Hf).
      rewrite Hf. simpl. rewrite IH. unfold xf_line_entries.
      rewrite Hs, Hm. by rewrite <- app_assoc.
Qed.

Lemma parse_xf_lines_raises (lines : list string) (acc : list xf_entry)
    (e : exn) :
  parse_xf_lines lines acc = Raise e → e = ValueError.
Proof.
  revert acc. induction lines as [|l lines IH]; intros acc; [done|].
  destruct (xf_skipped l) eqn:Hs.
  - rewrite parse_xf_lines_skip by done. apply IH.
  - rewrite parse_xf_lines_read by done.
    destruct (xf_fields (split (strip l))) as [x|e'] eqn:Hf; simpl.
    + apply IH.
    + intros [= <-]. by apply xf_fields_raises in Hf.
Qed.

(** A line that is read and has a field that is no float ends the loop
    with a [ValueError], wherever it stands. *)
Lemma parse_xf_lines_bad_field (lines : list string) (line : string)
    (acc : list xf_entry) :
  line ∈ lines → xf_skipped line = false → xf_bad_field line = true →
  parse_xf_lines lines acc = Raise ValueError.
Proof.
  intros Hin Hs Hbad. revert acc.
  induction lines as [|l lines IH]; intros acc; [by apply elem_of_nil in Hin|].
  apply elem_of_cons in Hin as [<-|Hin].
  - rewrite parse_xf_lines_read by done.
    by rewrite xf_fields_bad.
  - destruct (xf_skipped l) eqn:Hs'.
    + rewrite parse_xf_lines_skip by done. by apply IH.
    + rewrite parse_xf_lines_read by done.
      destruct (xf_fields (split (strip l))) as [x|e'] eqn:Hf; simpl.
      * by apply IH.
      * by apply xf_fields_raises in Hf as ->.
Qed.

End ParseXf.

(** C5: [parse_xf] skips the blank lines, the comment lines and the lines
    with fewer than six fields, and goes on with the lines after them;
    every other line adds the entry [(degrees(atan2(a21, a11)), dx, dy)]
    of its first six fields, in the order of the file, when these fields
    are floats.  The line ["1 0 0 1 10 20"] gives [(0.0, 10.0, 20.0)]. *)
Theorem parse_xf_skips_and_appends {rt : Builtins} (lines : list string) :
  Forall (λ l, xf_skipped l = false → xf_bad_field l = false) lines →
  py_float "0" = Some 0%float → py_float "1" = Some 1%float →
  py_float "10" = Some 10%float → py_float "20" = Some 20%float →
  math_atan2 0 1 = 0%float →
  parse_xf_lines lines [] = Ok (lines ≫= xf_line_entries)
  ∧ (∀ fs path, fs_lines fs path = Some lines →
       parse_xf fs (Some path) = Ok (lines ≫= xf_line_entries))
  ∧ (∀ l, l ∈ lines → xf_skipped l = true → xf_line_entries l = [])
  ∧ (∀ l, l ∈ lines → xf_skipped l = false →
       ∃ a11 a12 a21 a22 dx dy,
         mapM py_float (take 6 (split (strip l)))
         = Some [a11; a12; a21; a22; dx; dy]
         ∧ xf_line_entries l = [(degrees (math_atan2 a21 a11), dx, dy)])
  ∧ parse_xf_lines ["1 0 0 1 10 20"] [] = Ok [(0, 10, 20)%float].
Proof.
  intros Hall H0 H1 H10 H20 Hatan.
  assert (parse_xf_lines lines [] = Ok (lines ≫= xf_line_entries)) as Heq.
  { by rewrite parse_xf_lines_entries. }
  split_and!.
  - done.
  - intros fs path Hfs. unfold parse_xf, open_read. by rewrite Hfs.
  - intros l _. apply xf_line_entries_skipped.
  - intros l Hin Hs. rewrite Forall_forall in Hall.
    destruct (xf_skipped_false l Hs) as [_ Hlen].
    destruct (xf_fields_good _ Hlen (Hall l Hin Hs))
      as (a11 & a12 & a21 & a22 & dx & dy & Hm & Hf).
    exists a11, a12, a21, a22, dx, dy. split; [done|].
    unfold xf_line_entries. by rewrite Hs, Hm.
  - assert (split (strip "1 0 0 1 10 20") = ["1"; "0"; "0"; "1"; "10"; "20"])
      as Hsplit by (vm_compute; reflexivity).
    rewrite parse_xf_lines_read by (vm_compute; reflexivity).
    rewrite Hsplit. unfold xf_fields. cbn [take mapM mbind option_bind].
    rewrite !H0, !H1, H10, H20. cbn. rewrite Hatan. reflexivity.
Qed.

(** ** [main]: how a run ends *)

Section Main.
Context {rt : Builtins}.

Lemma parse_args_groups (a : argv) (args : namespace) :
  parse_args a = Ok args →
  exactly_one (aln1 args) (xf1 args) = true
  ∧ exactly_one (aln2 args) (xf2 args) = true.
Proof.
  unfold parse_args, usage_error.
  destruct (exactly_one (arg_aln1 a) (arg_xf1 a)) eqn:H1; [|discriminate].
  destruct (exactly_one (arg_aln2 a) (arg_xf2 a)) eqn:H2; [|discriminate].
  simpl. destruct (arg_out a); [|discriminate].
  destruct (arg_tilt_cutoff a) as [t|]; [destruct (py_float t)|];
    intros [= <-]; done.
Qed.

(** With an [.xf] path for a tomogram, its [.aln] path is [None]. *)
Lemma exactly_one_Some_r (a : option string) (p : string) :
  exactly_one a (Some p) = true → a = None.
Proof. by destruct a. Qed.

Lemma exactly_one_Some_l (b : option string) (p : string) :
  exactly_one (Some p) b = true → b = None.
Proof. by destruct b. Qed.

(** A run whose estimate raises ends there: nothing is written. *)
Lemma main_estimate_raises (fs : filesystem) (a : argv) (args : namespace)
    (w w' : world) (e : exn) :
  parse_args a = Ok args →
  estimate fs args w = (w', Raise e) →
  main fs a w = (w', Raise e).
Proof.
  intros Ha He. unfold main, mbind, M_bind, lift. by rewrite Ha, He.
Qed.

Lemma estimate_xf_mode (fs : filesystem) (args : namespace) (w : world) :
  truthy (aln1 args) && truthy (aln2 args) = false →
  estimate fs args w
  = match parse_xf fs (xf1 args) with
    | Ok e1 =>
        match parse_xf fs (xf2 args) with
        | Ok e2 => xf_estimate e1 e2 w
        | Raise e => (w, Raise e)
        end
    | Raise e => (w, Raise e)
    end.
Proof.
  intros Hmode. unfold estimate. rewrite Hmode.
  unfold mbind, M_bind, lift.
  destruct (parse_xf fs (xf1 args)); [|done].
  by destruct (parse_xf fs (xf2 args)).
Qed.

Lemma estimate_aln_mode (fs : filesystem) (args : namespace) (w : world) :
  truthy (aln1 args) && truthy (aln2 args) = true →
  estimate fs args w
  = match parse_aln fs (aln1 args) with
    | Ok d1 =>
        match parse_aln fs (aln2 args) with
        | Ok d2 => aln_estimate d1 d2 (tilt_cutoff args) w
        | Raise e => (w, Raise e)
        end
    | Raise e => (w, Raise e)
    end.
Proof.
  intros Hmode. unfold estimate. rewrite Hmode.
  unfold mbind, M_bind, lift.
  destruct (parse_aln fs (aln1 args)); [|done].
  by destruct (parse_aln fs (aln2 args)).
Qed.

Lemma parse_xf_readable (fs : filesystem) (path : string) (lines : list string) :
  fs_lines fs path = Some lines →
  parse_xf fs (Some path) = parse_xf_lines lines [].
Proof. intros Hfs. unfold parse_xf, open_read. by rewrite Hfs. Qed.

Lemma parse_aln_readable (fs : filesystem) (path : string) (lines : list string) :
  fs_lines fs path = Some lines →
  parse_aln fs (Some path) = Ok (parse_aln_lines lines ∅).
Proof. intros Hfs. unfold parse_aln, open_read. by rewrite Hfs. Qed.

End Main.

(** C10, as amended: a line of an [.xf] file that is neither blank nor a
    comment, has six fields or more and, among the first six, one that is
    no float makes [parse_xf] raise [ValueError]; in [.xf] mode the run
    ends with this exception, uncaught: no message of the program, and
    nothing written or printed. *)
Theorem parse_xf_bad_field_raises {rt : Builtins} (lines : list string)
    (line : string) :
  line ∈ lines →
  is_skipped (strip line) = false →
  (6 ≤ length (split (strip line)))%nat →
  xf_bad_field line = true →
  parse_xf_lines lines [] = Raise ValueError
  ∧ (∀ fs path, fs_lines fs path = Some lines →
       parse_xf fs (Some path) = Raise ValueError)
  ∧ (∀ fs a args p1 p2 l1 l2 w,
       parse_args a = Ok args →
       xf1 args = Some p1 → xf2 args = Some p2 →
       fs_lines fs p1 = Some l1 → fs_lines fs p2 = Some l2 →
       lines = l1 ∨ lines = l2 →
       main fs a w = (w, Raise ValueError)
       ∧ user_message (main fs a w).2 = None
       ∧ exit_status (main fs a w).2 = 1%Z).
Proof.
  intros Hin Hs Hlen Hbad.
  assert (xf_skipped line = false) as Hns.
  { unfold xf_skipped. rewrite Hs. simpl. apply Nat.ltb_ge. lia. }
  assert (∀ acc, parse_xf_lines lines acc = Raise ValueError) as Hraise.
  { intros acc. by apply parse_xf_lines_bad_field with line. }
  split_and!.
  - apply Hraise.
  - intros fs path Hfs. erewrite parse_xf_readable by done. apply Hraise.
  - intros fs a args p1 p2 l1 l2 w Ha Hx1 Hx2 Hl1 Hl2 Hor.
    assert (main fs a w = (w, Raise ValueError)) as Hmain.
    { apply main_estimate_raises with args; [done|].
      destruct (parse_args_groups a args Ha) as [Hg1 _].
      rewrite Hx1 in Hg1. apply exactly_one_Some_r in Hg1.
      rewrite estimate_xf_mode by (by rewrite Hg1).
      rewrite Hx1, Hx2. rewrite (parse_xf_readable fs p1 l1) by done.
      rewrite (parse_xf_readable fs p2 l2) by done.
      destruct Hor as [<-| <-].
      - by rewrite Hraise.
      - rewrite Hraise.
        destruct (parse_xf_lines l1 []) as [e1|e] eqn:H1; [done|].
        by apply parse_xf_lines_raises in H1 as ->. }
    by rewrite Hmain.
Qed.

(** C10, as stated, fails on a comment: the header line has seven fields,
    none of the first six is a float, and [parse_xf] skips it without an
    error, whatever [float] accepts. *)
Lemma xf_comment_with_six_fields_is_skipped :
  length (split (strip xf_header_line)) = 7%nat
  ∧ xf_bad_field (rt := example_runtime) xf_header_line = true
  ∧ parse_xf_lines (rt := example_runtime) [xf_header_line] [] = Ok []
  ∧ (∀ B : Builtins, @parse_xf_lines B [xf_header_line] [] = Ok []).
Proof. split_and!; [reflexivity..|intros B; reflexivity]. Qed.

(** ** [statistics.median] *)

Lemma getitem_lt {A : Type} (l : list A) (i : nat) :
  (i < length l)%nat → ∃ x, l !! i = Some x ∧ getitem l i = Ok x.
Proof.
  intros Hi. destruct (lookup_lt_is_Some_2 l i Hi) as [x Hx].
  exists x. unfold getitem. by rewrite Hx.
Qed.

Section Median.
Context {rt : Builtins}.

Lemma py_sorted_length (l : list float) : length (py_sorted l) = length l.
Proof. by rewrite py_sorted_perm. Qed.

(** The median of data that is not empty is a number. *)
Lemma median_nonempty (l : list float) :
  l ≠ [] → ∃ m, median l = Ok m.
Proof.
  intros Hne. unfold median. rewrite py_sorted_length.
  assert (0 < length l)%nat as Hpos by (destruct l; [done|simpl; lia]).
  destruct (length l =? 0)%nat eqn:H0; [apply Nat.eqb_eq in H0; lia|].
  destruct (length l mod 2 =? 1)%nat eqn:Hodd.
  - destruct (getitem_lt (py_sorted l) (length l / 2)) as (x & _ & ->);
      [|by eexists].
    rewrite py_sorted_length. apply Nat.div_lt; lia.
  - apply Nat.eqb_neq in Hodd.
    assert (length l = 2 * (length l / 2))%nat as Heven.
    { pose proof (Nat.div_mod_eq (length l) 2).
      pose proof (Nat.mod_upper_bound (length l) 2). lia. }
    destruct (getitem_lt (py_sorted l) (length l / 2 - 1)) as (a & _ & ->);
      [rewrite py_sorted_length; lia|].
    destruct (getitem_lt (py_sorted l) (length l / 2)) as (b & _ & ->);
      [rewrite py_sorted_length; lia|].
    by eexists.
Qed.


(** The median of an odd number of data is the one in the middle of the
    sorted data. *)
Lemma median_odd (l : list float) (k : nat) :
  length l = (2 * k + 1)%nat →
  ∃ a, py_sorted l !! k = Some a ∧ median l = Ok a.
Proof.
  intros Hlen. unfold median. rewrite py_sorted_length, Hlen.
  destruct (2 * k + 1 =? 0)%nat eqn:H0; [apply Nat.eqb_eq in H0; lia|].
  replace ((2 * k + 1) mod 2)%nat with 1%nat
    by (symmetry; rewrite Nat.add_comm, Nat.mul_comm; apply Nat.Div0.mod_add).
  replace ((2 * k + 1) / 2)%nat with k
    by (symmetry; rewrite Nat.add_comm, Nat.mul_comm, Nat.div_add by lia;
        reflexivity).
  simpl (1 =? 1)%nat. cbv iota.
  destruct (getitem_lt (py_sorted l) k) as (a & Ha & ->);
    [rewrite py_sorted_length; lia|].
  by exists a.
Qed.

(** A median is the middle of the sorted data [s], or the mean of the
    two in the middle: the data rearranged, in ascending order when none
    of them is a NaN. *)
Lemma median_middle (l : list float) (m : float) :
  median l = Ok m →
  ∃ s, s ≡ₚ l
       ∧ (Forall (λ x, is_nan x = false) l → StronglySorted float_le s)
       ∧ ((length l mod 2 = 1)%nat → s !! (length l / 2)%nat = Some m)
       ∧ ((length l mod 2 = 0)%nat →
          ∃ a b, s !! (length l / 2 - 1)%nat = Some a
                 ∧ s !! (length l / 2)%nat = Some b
                 ∧ m = ((a + b) / 2)%float).
Proof.
  unfold median. rewrite py_sorted_length. intros Hm.
  exists (py_sorted l).
  split; [apply py_sorted_perm|]. split; [apply py_sorted_ordered|].
  destruct (length l =? 0)%nat; [done|].
  destruct (length l mod 2 =? 1)%nat eqn:Hodd.
  - apply Nat.eqb_eq in Hodd. split; [|intros H0; lia]. intros _.
    unfold getitem, or_raise in Hm.
    destruct (py_sorted l !! (length l / 2)%nat); congruence.
  - apply Nat.eqb_neq in Hodd. split; [done|]. intros _.
    unfold getitem, or_raise in Hm.
    destruct (py_sorted l !! (length l / 2 - 1)%nat) as [a|]; [|done].
    destruct (py_sorted l !! (length l / 2)%nat) as [b|]; [|done].
    cbn [mbind res_bind] in Hm. exists a, b. split_and!; congruence.
Qed.

(** The median of one datum is that datum. *)
Lemma median_singleton (x : float) : median [x] = Ok x.
Proof.
  unfold median.
  rewrite (proj1 (Permutation_singleton_r _ _) (py_sorted_perm [x])).
  reflexivity.
Qed.

End Median.

(** ** [.aln] mode *)

Lemma common_secs_Permutation (d1 d2 : gmap Z aln_record) :
  common_secs d1 d2 ≡ₚ elements (dom d1 ∩ dom d2).
Proof. apply merge_sort_Permutation. Qed.

Lemma elem_of_common_secs (d1 d2 : gmap Z aln_record) (k : Z) :
  k ∈ common_secs d1 d2 ↔ is_Some (d1 !! k) ∧ is_Some (d2 !! k).
Proof.
  rewrite common_secs_Permutation, elem_of_elements, elem_of_intersection.
  by rewrite !elem_of_dom.
Qed.

Lemma common_secs_NoDup (d1 d2 : gmap Z aln_record) :
  NoDup (common_secs d1 d2).
Proof. rewrite common_secs_Permutation. apply NoDup_elements. Qed.

Lemma common_secs_sorted (d1 d2 : gmap Z aln_record) :
  StronglySorted Z.le (common_secs d1 d2).
Proof. apply StronglySorted_merge_sort; apply _. Qed.

Lemma common_secs_nil (d1 d2 : gmap Z aln_record) :
  common_secs d1 d2 = [] ↔ dom d1 ∩ dom d2 = ∅.
Proof.
  split; intros Heq.
  - apply leibniz_equiv, elements_empty_inv.
    apply Permutation_nil_r. by rewrite <- common_secs_Permutation, Heq.
  - apply Permutation_nil_r. by rewrite common_secs_Permutation, Heq, elements_empty.
Qed.

Lemma delta_lookup (proj : aln_record → float) (d1 d2 : gmap Z aln_record)
    (k : Z) (r1 r2 : aln_record) :
  d1 !! k = Some r1 → d2 !! k = Some r2 →
  delta proj d1 d2 k = Some (proj r2 - proj r1)%float.
Proof. intros H1 H2. unfold delta. by rewrite H1, H2. Qed.

(** The three lists the loop builds: the differences at the sections
    within the cutoff, in the order of [secs]. *)
Lemma aln_deltas_selected (d1 d2 : gmap Z aln_record) (cutoff : float)
    (secs : list Z) (a1 a2 a3 : list float) :
  Forall (λ k, is_Some (d1 !! k) ∧ is_Some (d2 !! k)) secs →
  aln_deltas d1 d2 cutoff secs (a1, a2, a3)
  = Ok (a1 ++ omap (delta aln_rot d1 d2)
                (filter (λ k, within_cutoff d1 cutoff k = true) secs),
        a2 ++ omap (delta aln_tx d1 d2)
                (filter (λ k, within_cutoff d1 cutoff k = true) secs),
        a3 ++ omap (delta aln_ty d1 d2)
                (filter (λ k, within_cutoff d1 cutoff k = true) secs)).
Proof.
  intros Hall. revert a1 a2 a3.
  induction Hall as [|k secs [[r1 H1] [r2 H2]] _ IH]; intros a1 a2 a3.
  - simpl. by rewrite !app_nil_r.
  - simpl. unfold dict_get. rewrite H1, H2. simpl.
    destruct r1 as [[[rot1 tx1] ty1] tilt1], r2 as [[[rot2 tx2] ty2] tilt2].
    simpl.
    destruct (abs tilt1 <=? cutoff)%float eqn:Hc.
    + rewrite filter_cons_True by (unfold within_cutoff; cbv beta; by rewrite H1).
      rewrite IH. simpl. rewrite !(delta_lookup _ _ _ _ _ _ H1 H2).
      by rewrite <- !app_assoc.
    + rewrite filter_cons_False
        by (unfold within_cutoff; cbv beta; rewrite H1; simpl; congruence).
      apply IH.
Qed.

Lemma omap_delta_length (proj : aln_record → float)
    (d1 d2 : gmap Z aln_record) (ks : list Z) :
  Forall (λ k, is_Some (d1 !! k) ∧ is_Some (d2 !! k)) ks →
  mapM (delta proj d1 d2) ks = Some (omap (delta proj d1 d2) ks)
  ∧ length (omap (delta proj d1 d2) ks) = length ks.
Proof.
  induction 1 as [|k ks [[r1 H1] [r2 H2]] _ [IH1 IH2]]; [done|].
  simpl. rewrite !(delta_lookup _ _ _ _ _ _ H1 H2). simpl.
  rewrite IH1. simpl. split; [done|]. f_equal. apply IH2.
Qed.

Section AlnMode.
Context {rt : Builtins}.

Lemma elem_of_selected (d1 d2 : gmap Z aln_record) (cutoff : float) (k : Z) :
  k ∈ selected d1 d2 cutoff
  ↔ ∃ r1 r2, d1 !! k = Some r1 ∧ d2 !! k = Some r2
             ∧ (abs (aln_tilt r1) <=? cutoff)%float = true.
Proof.
  unfold selected. rewrite list_elem_of_filter, elem_of_common_secs.
  unfold within_cutoff. split.
  - intros (Hc & [r1 H1] & [r2 H2]). rewrite H1 in Hc. by exists r1, r2.
  - intros (r1 & r2 & H1 & H2 & Hc). rewrite H1. by split_and!; [|eexists..].
Qed.

Lemma selected_in_both (d1 d2 : gmap Z aln_record) (cutoff : float) :
  Forall (λ k, is_Some (d1 !! k) ∧ is_Some (d2 !! k))
         (selected d1 d2 cutoff).
Proof.
  apply Forall_forall. intros k Hk.
  apply elem_of_selected in Hk as (r1 & r2 & H1 & H2 & _).
  split; by eexists.
Qed.

Lemma common_in_both (d1 d2 : gmap Z aln_record) :
  Forall (λ k, is_Some (d1 !! k) ∧ is_Some (d2 !! k)) (common_secs d1 d2).
Proof. apply Forall_forall. intros k. by rewrite elem_of_common_secs. Qed.

(** The run of [.aln] mode, by cases on the sections selected. *)
Lemma aln_estimate_unfold (d1 d2 : gmap Z aln_record) (cutoff : float)
    (w : world) :
  aln_estimate d1 d2 cutoff w
  = match common_secs d1 d2 with
    | [] => (w, Raise (SystemExit (inl msg_no_common)))
    | _ =>
        match selected d1 d2 cutoff with
        | [] => (w, Raise (SystemExit (inl (msg_no_entries cutoff))))
        | _ =>
            (w, dR ← median (omap (delta aln_rot d1 d2) (selected d1 d2 cutoff));
                dX ← median (omap (delta aln_tx d1 d2) (selected d1 d2 cutoff));
                dY ← median (omap (delta aln_ty d1 d2) (selected d1 d2 cutoff));
                Ok (dR, dX, dY))
        end
    end.
Proof.
  unfold aln_estimate.
  pose proof (common_in_both d1 d2) as Hboth.
  pose proof (selected_in_both d1 d2 cutoff) as Hsel.
  unfold selected in *.
  destruct (common_secs d1 d2) as [|k0 secs] eqn:Hsecs; [done|].
  unfold mbind at 1, M_bind, lift.
  rewrite aln_deltas_selected by done. rewrite !app_nil_l.
  destruct (filter _ (k0 :: secs)) as [|k ks] eqn:Hf; [done|].
  destruct (omap_delta_length aln_rot d1 d2 (k :: ks) Hsel) as [_ Hlen].
  destruct (omap (delta aln_rot d1 d2) (k :: ks)) as [|x xs] eqn:Hx;
    [discriminate|].
  unfold mbind, M_bind, lift, mret, M_ret, res_bind.
  destruct (median (x :: xs)); [|done].
  destruct (median (omap (delta aln_tx d1 d2) (k :: ks))); [|done].
  by destruct (median (omap (delta aln_ty d1 d2) (k :: ks))).
Qed.

End AlnMode.

Lemma StronglySorted_filter {A : Type} (R : relation A) (P : A → Prop)
    `{∀ x, Decision (P x)} (l : list A) :
  StronglySorted R l → StronglySorted R (filter P l).
Proof.
  induction 1 as [|x l Hl IH Hx]; [constructor|].
  destruct (decide (P x)).
  - rewrite filter_cons_True by done. constructor; [done|].
    apply Forall_forall. intros y [_ Hy]%list_elem_of_filter.
    rewrite Forall_forall in Hx. by apply Hx.
  - by rewrite filter_cons_False.
Qed.

Section AlnEstimate.
Context {rt : Builtins}.

Lemma selected_NoDup (d1 d2 : gmap Z aln_record) (cutoff : float) :
  NoDup (selected d1 d2 cutoff).
Proof. apply NoDup_filter, common_secs_NoDup. Qed.

Lemma selected_sorted (d1 d2 : gmap Z aln_record) (cutoff : float) :
  StronglySorted Z.le (selected d1 d2 cutoff).
Proof. apply StronglySorted_filter, common_secs_sorted. Qed.

(** With a section selected, the estimate is the three medians. *)
Lemma aln_estimate_selected (d1 d2 : gmap Z aln_record) (cutoff : float)
    (w : world) :
  selected d1 d2 cutoff ≠ [] →
  ∃ dR dX dY,
    median (omap (delta aln_rot d1 d2) (selected d1 d2 cutoff)) = Ok dR
    ∧ median (omap (delta aln_tx d1 d2) (selected d1 d2 cutoff)) = Ok dX
    ∧ median (omap (delta aln_ty d1 d2) (selected d1 d2 cutoff)) = Ok dY
    ∧ aln_estimate d1 d2 cutoff w = (w, Ok (dR, dX, dY)).
Proof.
  intros Hne. rewrite aln_estimate_unfold.
  assert (∀ proj, ∃ m,
    median (omap (delta proj d1 d2) (selected d1 d2 cutoff)) = Ok m) as Hmed.
  { intros proj. apply median_nonempty. intros Hnil.
    destruct (omap_delta_length proj d1 d2 _ (selected_in_both d1 d2 cutoff))
      as [_ Hlen].
    rewrite Hnil in Hlen. by destruct (selected d1 d2 cutoff). }
  destruct (Hmed aln_rot) as [dR HR], (Hmed aln_tx) as [dX HX],
    (Hmed aln_ty) as [dY HY].
  exists dR, dX, dY. split_and!; [done..|].
  destruct (common_secs d1 d2) as [|k0 secs] eqn:Hsecs.
  { unfold selected in Hne. by rewrite Hsecs in Hne. }
  destruct (selected d1 d2 cutoff) as [|k ks] eqn:Hsel; [done|].
  by rewrite HR, HX, HY.
Qed.

(** The tilts of the second dictionary play no part. *)
Lemma aln_estimate_forget_tilt (d1 d2 d2' : gmap Z aln_record)
    (cutoff : float) (w : world) :
  forget_tilt <$> d2' = forget_tilt <$> d2 →
  aln_estimate d1 d2' cutoff w = aln_estimate d1 d2 cutoff w.
Proof.
  intros Heq.
  assert (common_secs d1 d2' = common_secs d1 d2) as Hsecs.
  { unfold common_secs.
    by rewrite <- (dom_fmap_L forget_tilt d2'), Heq, dom_fmap_L. }
  assert (selected d1 d2' cutoff = selected d1 d2 cutoff) as Hsel.
  { unfold selected. by rewrite Hsecs. }
  assert (∀ (proj : float * float * float → float) (ks : list Z),
    omap (delta (proj ∘ forget_tilt) d1 d2') ks
          = omap (delta (proj ∘ forget_tilt) d1 d2) ks) as Hd.
  { intros proj ks. apply list_omap_ext, Forall2_same_length_lookup_2; [done|].
    intros i k k' Hk Hk'. assert (k' = k) as -> by congruence.
    unfold delta. destruct (d1 !! k) as [r1|]; [simpl|done].
    pose proof (f_equal (λ m : gmap Z (float * float * float), m !! k) Heq)
      as Hlk.
    simpl in Hlk. rewrite !lookup_fmap in Hlk.
    destruct (d2' !! k) as [r2'|], (d2 !! k) as [r2|]; simpl in *; try done.
    by injection Hlk as ->. }
  rewrite !aln_estimate_unfold, Hsecs, Hsel.
  change aln_rot with ((λ t : float * float * float, t.1.1) ∘ forget_tilt).
  change aln_tx with ((λ t : float * float * float, t.1.2) ∘ forget_tilt).
  change aln_ty with ((λ t : float * float * float, t.2) ∘ forget_tilt).
  by rewrite !Hd.
Qed.

End AlnEstimate.

(** C1: in [.aln] mode, with a section common to the two dictionaries
    whose tilt in the first is within the cutoff, the estimate is the
    median, axis by axis, of the differences [rot2 - rot1], [tx2 - tx1]
    and [ty2 - ty1] over the sections [ks] that are exactly the common
    ones with [abs(tilt1) <= cutoff]; a second dictionary that differs
    from [d2] in its tilts only gives the same estimate.  A median is
    the middle of the sorted data [s], or the mean of the two in the
    middle: the data rearranged, in ascending order when none of them is
    a NaN. *)
Theorem aln_estimate_is_median_over_selected {rt : Builtins}
    (d1 d2 : gmap Z aln_record) (cutoff : float) (w : world) :
  (∃ k r1 r2, d1 !! k = Some r1 ∧ d2 !! k = Some r2
              ∧ (abs (aln_tilt r1) <=? cutoff)%float = true) →
  ∃ ks drots dtxs dtys dR dX dY,
    (∀ k, k ∈ ks ↔ ∃ r1 r2, d1 !! k = Some r1 ∧ d2 !! k = Some r2
                            ∧ (abs (aln_tilt r1) <=? cutoff)%float = true)
    ∧ NoDup ks ∧ StronglySorted Z.le ks
    ∧ mapM (delta aln_rot d1 d2) ks = Some drots
    ∧ mapM (delta aln_tx d1 d2) ks = Some dtxs
    ∧ mapM (delta aln_ty d1 d2) ks = Some dtys
    ∧ median drots = Ok dR ∧ median dtxs = Ok dX ∧ median dtys = Ok dY
    ∧ aln_estimate d1 d2 cutoff w = (w, Ok (dR, dX, dY))
    ∧ (∀ d2', forget_tilt <$> d2' = forget_tilt <$> d2 →
              aln_estimate d1 d2' cutoff w = (w, Ok (dR, dX, dY)))
    ∧ (∀ l m, median l = Ok m →
         ∃ s, s ≡ₚ l
              ∧ (Forall (λ x, is_nan x = false) l →
                 StronglySorted float_le s)
              ∧ ((length l mod 2 = 1)%nat →
                 s !! (length l / 2)%nat = Some m)
              ∧ ((length l mod 2 = 0)%nat →
                 ∃ a b, s !! (length l / 2 - 1)%nat = Some a
                        ∧ s !! (length l / 2)%nat = Some b
                        ∧ m = ((a + b) / 2)%float)).
Proof.
  intros Hex.
  assert (selected d1 d2 cutoff ≠ []) as Hne.
  { destruct Hex as (k & Hk). apply elem_of_selected in Hk.
    intros Hnil. rewrite Hnil in Hk. by apply elem_of_nil in Hk. }
  destruct (aln_estimate_selected d1 d2 cutoff w Hne)
    as (dR & dX & dY & HR & HX & HY & Hest).
  pose proof (selected_in_both d1 d2 cutoff) as Hboth.
  exists (selected d1 d2 cutoff),
    (omap (delta aln_rot d1 d2) (selected d1 d2 cutoff)),
    (omap (delta aln_tx d1 d2) (selected d1 d2 cutoff)),
    (omap (delta aln_ty d1 d2) (selected d1 d2 cutoff)), dR, dX, dY.
  split_and!; try done.
  - apply elem_of_selected.
  - apply selected_NoDup.
  - apply selected_sorted.
  - by apply omap_delta_length.
  - by apply omap_delta_length.
  - by apply omap_delta_length.
  - intros d2' Heq. by rewrite (aln_estimate_forget_tilt d1 d2 d2').
  - apply median_middle.
Qed.

(** ** The order of the lines of an [.aln] file *)

Section LineOrder.
Context {rt : Builtins}.

(** Well-formed lines with unique sections give the same dictionary in
    every order. *)
Lemma parse_aln_lines_Permutation (lines lines' : list string) :
  lines ≡ₚ lines' →
  Forall (λ l, aln_malformed l = false) lines →
  NoDup (aln_records lines).*1 →
  parse_aln_lines lines' ∅ = parse_aln_lines lines ∅.
Proof.
  intros Hperm Hwf Hnd.
  assert (aln_records lines ≡ₚ aln_records lines') as Hrec.
  { unfold aln_records. by rewrite Hperm. }
  rewrite !parse_aln_lines_well_formed; [|done|by rewrite <- Hperm].
  rewrite !dict_of_NoDup; [|done|by rewrite <- Hrec].
  symmetry. by apply list_to_map_proper.
Qed.

Lemma parse_aln_lines_lookup (lines : list string) (k : Z) (r : aln_record) :
  Forall (λ l, aln_malformed l = false) lines →
  NoDup (aln_records lines).*1 →
  (k, r) ∈ aln_records lines →
  parse_aln_lines lines ∅ !! k = Some r.
Proof.
  intros Hwf Hnd Hin. rewrite parse_aln_lines_well_formed by done.
  by apply dict_of_lookup_NoDup.
Qed.

End LineOrder.

(** C3: for two well-formed [.aln] files with unique sections that share
    a section whose tilt in the first file is within the cutoff, the
    estimate exists and stays the same when the lines of either file are
    permuted. *)
Theorem aln_estimate_line_order_independent {rt : Builtins}
    (lines1 lines1' lines2 lines2' : list string) (cutoff : float)
    (w : world) :
  lines1 ≡ₚ lines1' → lines2 ≡ₚ lines2' →
  Forall (λ l, aln_malformed l = false) lines1 →
  Forall (λ l, aln_malformed l = false) lines2 →
  NoDup (aln_records lines1).*1 → NoDup (aln_records lines2).*1 →
  (∃ k r1 r2, (k, r1) ∈ aln_records lines1 ∧ (k, r2) ∈ aln_records lines2
              ∧ (abs (aln_tilt r1) <=? cutoff)%float = true) →
  ∃ est,
    aln_estimate (parse_aln_lines lines1 ∅) (parse_aln_lines lines2 ∅)
                 cutoff w = (w, Ok est)
    ∧ aln_estimate (parse_aln_lines lines1' ∅) (parse_aln_lines lines2' ∅)
                   cutoff w = (w, Ok est).
Proof.
  intros Hp1 Hp2 Hwf1 Hwf2 Hnd1 Hnd2 (k & r1 & r2 & H1 & H2 & Hc).
  rewrite (parse_aln_lines_Permutation lines1 lines1') by done.
  rewrite (parse_aln_lines_Permutation lines2 lines2') by done.
  destruct (aln_estimate_selected (parse_aln_lines lines1 ∅)
              (parse_aln_lines lines2 ∅) cutoff w)
    as (dR & dX & dY & _ & _ & _ & Hest).
  - intros Hnil.
    assert (k ∈ selected (parse_aln_lines lines1 ∅)
                         (parse_aln_lines lines2 ∅) cutoff) as Hk.
    { apply elem_of_selected. exists r1, r2.
      rewrite (parse_aln_lines_lookup lines1 k r1) by done.
      by rewrite (parse_aln_lines_lookup lines2 k r2). }
    rewrite Hnil in Hk. by apply elem_of_nil in Hk.
  - by exists (dR, dX, dY).
Qed.

(** ** Fatal conditions *)

Lemma prefix_app (s t : string) : String.prefix s (s ++ t)%string = true.
Proof.
  induction s as [|c s IH]; simpl; [by destruct t|].
  by destruct (Ascii.ascii_dec c c).
Qed.

Lemma contains_unfold (needle hay : string) :
  contains needle hay
  = String.prefix needle hay
    || match hay with
       | EmptyString => false
       | String _ hay' => contains needle hay'
       end.
Proof. by destruct hay. Qed.

Lemma contains_app (needle a b : string) :
  contains needle (a ++ needle ++ b)%string = true.
Proof.
  induction a as [|c a IH]; rewrite contains_unfold.
  - change (EmptyString ++ needle ++ b)%string with (needle ++ b)%string.
    by rewrite prefix_app.
  - change (String c a ++ needle ++ b)%string
      with (String c (a ++ needle ++ b)%string).
    cbv iota. rewrite IH. apply orb_true_r.
Qed.

Section Fatal.
Context {rt : Builtins}.

Lemma msg_no_entries_contains (cutoff : float) :
  contains (float_str cutoff) (msg_no_entries cutoff) = true.
Proof. apply contains_app. Qed.

Lemma xf_estimate_empty (e1 e2 : list xf_entry) (w : world) :
  e1 = [] ∨ e2 = [] →
  xf_estimate e1 e2 w = (w, Raise (SystemExit (inl msg_no_xf))).
Proof.
  intros [-> | ->]; unfold xf_estimate; simpl; [done|].
  by rewrite orb_true_r.
Qed.

Lemma estimate_fatal (fs : filesystem) (args : namespace) (msg : string)
    (w : world) :
  fatal_condition fs args msg →
  estimate fs args w = (w, Raise (SystemExit (inl msg))).
Proof.
  intros [d1 d2 Hmode Hd1 Hd2 Hdom | d1 d2 Hmode Hd1 Hd2 Hdom Hout
         | e1 e2 Hmode He1 He2 Hempty].
  - rewrite estimate_aln_mode, Hd1, Hd2, aln_estimate_unfold by done.
    apply common_secs_nil in Hdom. by rewrite Hdom.
  - rewrite estimate_aln_mode, Hd1, Hd2, aln_estimate_unfold by done.
    destruct (common_secs d1 d2) as [|k0 secs] eqn:Hsecs.
    { by apply common_secs_nil in Hsecs. }
    destruct (selected d1 d2 (tilt_cutoff args)) as [|k ks] eqn:Hsel; [done|].
    assert (k ∈ selected d1 d2 (tilt_cutoff args)) as Hk
      by (rewrite Hsel; left).
    unfold selected in Hk. apply list_elem_of_filter in Hk as [Hc Hk].
    rewrite common_secs_Permutation, elem_of_elements in Hk.
    rewrite Hout in Hc by done. discriminate.
  - rewrite estimate_xf_mode, He1, He2 by done. by apply xf_estimate_empty.
Qed.

End Fatal.

(** C6, as amended: with both inputs read and parsed, on each fatal
    condition of the estimate (no common section of the two [.aln]
    files, no common section within the cutoff, an [.xf] file without an
    entry) the run ends with [sys.exit] and the message of the
    condition: the status is 1, nothing has been written or printed, and
    the message for the cutoff holds the cutoff's text. *)
Theorem fatal_conditions_exit_without_output {rt : Builtins}
    (fs : filesystem) (a : argv) (args : namespace) (msg : string)
    (w : world) :
  parse_args a = Ok args →
  fatal_condition fs args msg →
  main fs a w = (w, Raise (SystemExit (inl msg)))
  ∧ exit_status (main fs a w).2 = 1%Z
  ∧ user_message (main fs a w).2 = Some msg
  ∧ written (main fs a w).1 = written w
  ∧ contains (float_str (tilt_cutoff args))
             (msg_no_entries (tilt_cutoff args)) = true.
Proof.
  intros Ha Hfatal.
  assert (main fs a w = (w, Raise (SystemExit (inl msg)))) as Hmain.
  { apply main_estimate_raises with args; [done|]. by apply estimate_fatal. }
  rewrite Hmain. split_and!; try done. apply msg_no_entries_contains.
Qed.

(** C6, as stated, fails when the [.xf] file without an entry comes with
    one that cannot be parsed: the first file yields no entry, the
    second has a field that is no float, and the run ends with the
    uncaught [ValueError], not with a message of the program.  So it is
    whenever the second file raises, whatever the runtime. *)
Lemma xf_without_entries_beside_bad_file :
  parse_args (rt := example_runtime) (xf_argv "empty.xf" "bad.xf")
  = Ok (xf_namespace "empty.xf" "bad.xf")
  ∧ parse_xf (rt := example_runtime) example_fs (Some "empty.xf") = Ok []
  ∧ parse_xf (rt := example_runtime) example_fs (Some "bad.xf")
    = Raise ValueError
  ∧ main (rt := example_runtime) example_fs (xf_argv "empty.xf" "bad.xf")
      world0
    = (world0, Raise ValueError)
  ∧ user_message
      (main (rt := example_runtime) example_fs
         (xf_argv "empty.xf" "bad.xf") world0).2
    = None
  ∧ (∀ (rt : Builtins) (fs : filesystem) (a : argv) (args : namespace)
       (e : exn) (w : world),
       parse_args a = Ok args →
       truthy (aln1 args) && truthy (aln2 args) = false →
       parse_xf fs (xf1 args) = Ok [] →
       parse_xf fs (xf2 args) = Raise e →
       main fs a w = (w, Raise e)).
Proof.
  split_and!; [by vm_compute..|].
  intros rt fs a args e w Ha Hmode H1 H2.
  apply main_estimate_raises with args; [done|].
  by rewrite estimate_xf_mode, H1, H2.
Qed.

(** ** A path of each format *)

(** C9: with an [.aln] path for the source tomogram and an [.xf] path for
    the target, [argparse] accepts the command line, [main] takes the
    [.xf] branch and [parse_xf(None)] raises [TypeError], whatever the
    files hold: no estimate, nothing written. *)
Theorem mixed_formats_raise_type_error {rt : Builtins} (fs : filesystem)
    (p q o : string) (w : world) :
  parse_args (mixed_argv p q o)
  = Ok (Namespace (Some p) None None (Some q) o 5%float false)
  ∧ main fs (mixed_argv p q o) w = (w, Raise TypeError)
  ∧ exit_status (main fs (mixed_argv p q o) w).2 = 1%Z
  ∧ user_message (main fs (mixed_argv p q o) w).2 = None.
Proof.
  assert (parse_args (mixed_argv p q o)
          = Ok (Namespace (Some p) None None (Some q) o 5%float false)) as Ha
    by reflexivity.
  assert (main fs (mixed_argv p q o) w = (w, Raise TypeError)) as Hmain.
  { apply main_estimate_raises with
      (Namespace (Some p) None None (Some q) o 5%float false); [done|].
    rewrite estimate_xf_mode; [done|]. simpl. apply andb_false_r. }
  by rewrite Hmain.
Qed.

(** ** Texts: fields and lines *)

Lemma string_app_assoc (a b c : string) :
  ((a ++ b) ++ c = a ++ b ++ c)%string.
Proof. induction a as [|x a IH]; string_step; [done|]. by f_equal. Qed.

Lemma string_app_nil_r (a : string) : (a ++ EmptyString)%string = a.
Proof. induction a as [|x a IH]; string_step; [done|]. by f_equal. Qed.

Lemma string_length_app (a b : string) :
  String.length (a ++ b)%string = (String.length a + String.length b)%nat.
Proof. induction a as [|x a IH]; string_step; simpl; [done|]. by f_equal. Qed.

Lemma all_chars_app (p : ascii → bool) (a b : string) :
  all_chars p (a ++ b)%string = all_chars p a && all_chars p b.
Proof.
  induction a as [|x a IH]; string_step; simpl; [done|].
  by rewrite IH, andb_assoc.
Qed.

Lemma all_chars_impl (p q : ascii → bool) (s : string) :
  (∀ c, p c = true → q c = true) →
  all_chars p s = true → all_chars q s = true.
Proof.
  intros Hpq. induction s as [|x s IH]; simpl; [done|].
  intros [Hx Hs]%andb_prop. by rewrite (Hpq x Hx), IH.
Qed.

Lemma not_space_not_newline (c : ascii) :
  not_space c = true → not_newline c = true.
Proof.
  unfold not_space, not_newline. intros Hc.
  destruct (bool_decide_reflect (c = newline)) as [->|]; [|done].
  by vm_compute in Hc.
Qed.

Lemma is_digit_not_space (c : ascii) : is_digit c = true → not_space c = true.
Proof.
  destruct c as [[] [] [] [] [] [] [] []]; vm_compute; congruence.
Qed.





(** A run without a newline, followed by a newline, is the first line. *)
Lemma lines_row (r rest : string) :
  all_chars not_newline r = true →
  lines (r ++ nl ++ rest)%string = r :: lines rest.
Proof.
  induction r as [|c r IH]; intros Hr.
  - reflexivity.
  - simpl in Hr. apply andb_prop in Hr as [Hc Hr].
    change (String c r ++ nl ++ rest)%string
      with (String c (r ++ nl ++ rest)%string).
    simpl lines. apply negb_true_iff in Hc. rewrite Hc.
    by rewrite IH.
Qed.

Lemma lines_unlines (rows : list string) :
  Forall (λ r, all_chars not_newline r = true) rows →
  lines (unlines rows) = rows.
Proof.
  induction 1 as [|r rows Hr _ IH]; [done|].
  simpl. rewrite lines_row by done. by rewrite IH.
Qed.

(** ** The fields [format_f] prints *)

Lemma digit_is_digit (d : Z) : (0 ≤ d < 10)%Z → is_digit (digit d) = true.
Proof.
  intros Hd.
  assert (d = 0 ∨ d = 1 ∨ d = 2 ∨ d = 3 ∨ d = 4 ∨ d = 5 ∨ d = 6 ∨ d = 7
          ∨ d = 8 ∨ d = 9)%Z as Hcases by lia.
  repeat (destruct Hcases as [->|Hcases]; [reflexivity|]). by subst.
Qed.

Lemma fixed_digits_digits (n : nat) (v : Z) :
  all_chars is_digit (fixed_digits n v) = true.
Proof.
  revert v. induction n as [|n IH]; intros v; simpl; [done|].
  rewrite all_chars_app, IH. simpl.
  rewrite digit_is_digit; [done|]. apply Z.mod_pos_bound. lia.
Qed.

Lemma fixed_digits_length (n : nat) (v : Z) :
  String.length (fixed_digits n v) = n.
Proof.
  revert v. induction n as [|n IH]; intros v; simpl; [done|].
  rewrite string_length_app, IH. simpl. lia.
Qed.

Lemma string_of_uint_digits (u : Decimal.uint) :
  all_chars is_digit (NilEmpty.string_of_uint u) = true.
Proof. induction u; simpl; done. Qed.

Lemma decimal_digits (v : Z) :
  decimal v ≠ EmptyString ∧ all_chars is_digit (decimal v) = true.
Proof.
  unfold decimal, NilZero.string_of_uint.
  destruct (N.to_uint (Z.to_N v)) as [|u|u|u|u|u|u|u|u|u|u] eqn:Hu;
    (split; [done|]); try done;
    rewrite <- Hu; apply string_of_uint_digits.
Qed.

Lemma cut_dot_digits (a b : string) :
  all_chars is_digit a = true →
  cut_dot (a ++ String "." b)%string = (a, Some b).
Proof.
  induction a as [|c a IH]; string_step; [done|].
  simpl all_chars. intros [Hc Ha]%andb_prop.
  destruct c as [[] [] [] [] [] [] [] []];
    try (vm_compute in Hc; discriminate);
    cbn [cut_dot]; by rewrite IH.
Qed.

Lemma fixed_six_decimals (v : Z) : six_decimals (fixed 6 v) = true.
Proof.
  unfold six_decimals, fixed.
  destruct (decimal_digits (v / 10 ^ Z.of_nat 6)) as [Hne Hd].
  string_step. rewrite cut_dot_digits by done.
  rewrite Hd, fixed_digits_digits, fixed_digits_length.
  by destruct (bool_decide_reflect (decimal (v / 10 ^ Z.of_nat 6) = EmptyString)).
Qed.

Lemma fixed_word (prec : nat) (v : Z) :
  fixed prec v ≠ EmptyString ∧ all_chars not_space (fixed prec v) = true.
Proof.
  unfold fixed.
  destruct (decimal_digits (v / 10 ^ Z.of_nat prec)) as [Hne Hd].
  split.
  - destruct (decimal (v / 10 ^ Z.of_nat prec)); [done|]. by string_step.
  - rewrite all_chars_app.
    rewrite (all_chars_impl is_digit not_space _ is_digit_not_space Hd).
    destruct prec as [|prec]; [done|].
    pose proof (all_chars_impl is_digit not_space _ is_digit_not_space
                  (fixed_digits_digits (S prec)
                     (v mod 10 ^ Z.of_nat (S prec)))) as Hfd.
    revert Hfd. generalize (fixed_digits (S prec) (v mod 10 ^ Z.of_nat (S prec))).
    intros fd Hfd. string_step. simpl all_chars. by rewrite Hfd.
Qed.

Lemma format_f_sign (space : bool) (prec : nat) (x : float) :
  format_f space prec x
  = (sign_column space (sign_bit x) ++ magnitude prec x)%string.
Proof.
  unfold format_f, magnitude, sign_bit. by destruct (Prim2SF x).
Qed.

Lemma magnitude_word (prec : nat) (x : float) :
  magnitude prec x ≠ EmptyString
  ∧ all_chars not_space (magnitude prec x) = true.
Proof.
  unfold magnitude. destruct (Prim2SF x); try done; apply fixed_word.
Qed.

Lemma magnitude_finite (x : float) :
  is_finite x = true → six_decimals (magnitude 6 x) = true.
Proof.
  unfold is_finite, magnitude.
  destruct (Prim2SF x); try done; intros _; apply fixed_six_decimals.
Qed.

(** A finite number is printed with six decimals behind its sign
    column. *)
Lemma format_f_sign_aligned (x : float) :
  is_finite x = true → sign_aligned x (format_f true 6 x) = true.
Proof.
  intros Hfin. rewrite format_f_sign. unfold sign_aligned, sign_column.
  destruct (sign_bit x); string_step; cbv beta iota;
    by rewrite magnitude_finite.
Qed.


Lemma format_f_no_newline (prec : nat) (x : float) :
  all_chars not_newline (format_f true prec x) = true.
Proof.
  rewrite format_f_sign, all_chars_app.
  destruct (magnitude_word prec x) as [_ Hw].
  rewrite (all_chars_impl not_space not_newline _ not_space_not_newline Hw).
  unfold sign_column. by destruct (sign_bit x).
Qed.



(** ** [.xf] mode *)

Lemma xf_deltas_from (proj : xf_entry → float) (xf1 xf2 : list xf_entry)
    (n s : nat) :
  (s + n ≤ length xf1)%nat → (s + n ≤ length xf2)%nat →
  mapM (λ i, e2 ← getitem xf2 i; e1 ← getitem xf1 i;
             Ok (proj e2 - proj e1)%float) (seq s n)
  = Ok (zip_with (xf_delta proj) (take n (drop s xf2)) (take n (drop s xf1))).
Proof.
  revert s. induction n as [|n IH]; intros s H1 H2; [done|].
  destruct (getitem_lt xf1 s) as (e1 & He1 & Hg1); [lia|].
  destruct (getitem_lt xf2 s) as (e2 & He2 & Hg2); [lia|].
  cbn [seq mapM]. rewrite Hg2. cbn [mbind res_bind]. rewrite Hg1.
  cbn [mbind res_bind]. rewrite IH by lia. cbn [mbind res_bind mret res_ret].
  rewrite (drop_S xf1 e1 s He1), (drop_S xf2 e2 s He2). done.
Qed.

Lemma xf_deltas_positional (proj : xf_entry → float)
    (xf1 xf2 : list xf_entry) (n : nat) :
  (n ≤ length xf1)%nat → (n ≤ length xf2)%nat →
  xf_deltas proj xf1 xf2 n
  = Ok (zip_with (xf_delta proj) (take n xf2) (take n xf1)).
Proof. intros H1 H2. unfold xf_deltas. by rewrite xf_deltas_from. Qed.


(** ** [build_transform] *)


Lemma math_1_raises (func : float → float) (x : float) (e : exn) :
  math_1 func x = Raise e → e = ValueError.
Proof.
  unfold math_1.
  destruct (is_nan (func x) && negb (is_nan x)); [congruence|].
  destruct (is_infinite (func x) && is_finite x); congruence.
Qed.



Section Transform.
Context {rt : Builtins}.



Lemma unlines_transform (c s dX dY : float) (flip_z : bool) :
  (join nl (transform_lines c s dX dY flip_z) ++ nl)%string
  = unlines (transform_lines c s dX dY flip_z).
Proof.
  unfold transform_lines, unlines, join, foldr.
  by rewrite !string_app_assoc, string_app_nil_r.
Qed.


Lemma build_transform_inv (dR dX dY : float) (flip_z : bool) (text : string) :
  build_transform dR dX dY flip_z = Ok text →
  ∃ c s, py_cos (radians dR) = Ok c ∧ py_sin (radians dR) = Ok s
         ∧ text = unlines (transform_lines c s dX dY flip_z).
Proof.
  unfold build_transform. intros H.
  destruct (py_cos (radians dR)) as [c|] eqn:Hc; [|done].
  destruct (py_sin (radians dR)) as [s|] eqn:Hs; [|done].
  cbn [mbind res_bind] in H. rewrite unlines_transform in H.
  exists c, s. split_and!; congruence.
Qed.

(** [build_transform] raises nothing but the [ValueError] of [math.cos]
    and [math.sin]. *)
Lemma build_transform_raises (dR dX dY : float) (flip_z : bool) (e : exn) :
  build_transform dR dX dY flip_z = Raise e → e = ValueError.
Proof.
  unfold build_transform, py_cos, py_sin.
  destruct (math_1 math_cos (radians dR)) as [c|e1] eqn:Hc;
    cbn [mbind res_bind].
  - destruct (math_1 math_sin (radians dR)) as [s|e2] eqn:Hs;
      cbn [mbind res_bind]; [done|].
    intros [= <-]. by apply math_1_raises in Hs.
  - intros [= <-]. by apply math_1_raises in Hc.
Qed.

Lemma transform_lines_no_newline (c s dX dY : float) (flip_z : bool) :
  Forall (λ r, all_chars not_newline r = true)
         (transform_lines c s dX dY flip_z).
Proof.
  unfold transform_lines.
  repeat constructor; rewrite ?all_chars_app, ?format_f_no_newline; done.
Qed.

Lemma lines_transform (c s dX dY : float) (flip_z : bool) :
  lines (unlines (transform_lines c s dX dY flip_z))
  = transform_lines c s dX dY flip_z.
Proof. apply lines_unlines, transform_lines_no_newline. Qed.



End Transform.



(** C8, as amended: a text that [build_transform] returns is three
    lines, each ended by a newline; each line is four fields with one
    blank between them; the fields of the cosine, the sines, [dX], [dY]
    and [zsign] are their prints by [" .6f"], which for a finite number
    is six decimals behind a sign column (blank for a clear sign bit,
    [-] for a set one); the constant third field of the first two lines
    and the second and fourth of the last are [" 0.000000"]. *)
Theorem serialized_layout {rt : Builtins} (dR dX dY : float) (flip_z : bool)
    (text : string) :
  build_transform dR dX dY flip_z = Ok text →
  ∃ (c s : float) (f31 : string),
    py_cos (radians dR) = Ok c ∧ py_sin (radians dR) = Ok s
    ∧ text
      = unlines
          [ join " " [ format_f true 6 c;
                       format_f true 6 (- s)%float;
                       " 0.000000";
                       format_f true 6 dX ];
            join " " [ format_f true 6 s;
                       format_f true 6 c;
                       " 0.000000";
                       format_f true 6 dY ];
            join " " [ f31;
                       " 0.000000";
                       format_f true 6 (if flip_z then -1 else 1)%float;
                       " 0.000000" ] ]
    ∧ length (lines text) = 3%nat
    ∧ unlines (lines text) = text
    ∧ (∀ x, is_finite x = true → sign_aligned x (format_f true 6 x) = true)
    ∧ format_f true 6 nan = " nan"
    ∧ format_f true 6 infinity = " inf"
    ∧ format_f true 6 neg_infinity = "-inf"
    ∧ sign_aligned 0 " 0.000000" = true
    ∧ sign_aligned (if flip_z then -1 else 1)%float
        (format_f true 6 (if flip_z then -1 else 1)%float) = true.
Proof.
  intros Htext.
  destruct (build_transform_inv _ _ _ _ _ Htext) as (c & s & Hc & Hs & ->).
  exists c, s, "0.000000". split_and!.
  - done.
  - done.
  - unfold transform_lines, unlines, join, foldr.
    by rewrite !string_app_assoc, !string_app_nil_r.
  - by rewrite lines_transform.
  - by rewrite lines_transform.
  - apply format_f_sign_aligned.
  - reflexivity.
  - reflexivity.
  - reflexivity.
  - reflexivity.
  - by destruct flip_z.
Qed.

(** C8, as stated, fails on a translation that is not a number: its
    field is [" nan"], without a decimal, whatever the runtime. *)
Lemma build_transform_nan_field :
  build_transform (rt := example_runtime) 0 nan 0 false
  = Ok (unlines [ " 1.000000 -0.000000  0.000000  nan";
                  " 0.000000  1.000000  0.000000  0.000000";
                  "0.000000  0.000000  1.000000  0.000000" ])
  ∧ sign_aligned nan " nan" = false
  ∧ six_decimals "nan" = false
  ∧ (∀ (rt : Builtins) (dR dY : float) (flip_z : bool) (text : string),
       build_transform dR nan dY flip_z = Ok text →
       ∃ c s, py_cos (radians dR) = Ok c ∧ py_sin (radians dR) = Ok s
              ∧ lines text !! 0%nat
                = Some (format_f true 6 c ++ " "
                        ++ format_f true 6 (- s)%float
                        ++ "  0.000000 " ++ " nan")%string).
Proof.
  split_and!; [by vm_compute..|].
  intros rt dR dY flip_z text Htext.
  destruct (build_transform_inv _ _ _ _ _ Htext) as (c & s & Hc & Hs & ->).
  exists c, s. split_and!; [done..|]. by rewrite lines_transform.
Qed.

(** * The properties at the example inputs *)

Lemma aln_estimate_is_median_over_selected_witness :
  (∃ k r1 r2,
      parse_aln_lines (rt := example_runtime) aln_a ∅ !! k = Some r1
      ∧ parse_aln_lines (rt := example_runtime) aln_b ∅ !! k = Some r2
      ∧ (abs (aln_tilt r1) <=? 5)%float = true)
  ∧ aln_estimate (rt := example_runtime)
      (parse_aln_lines (rt := example_runtime) aln_a ∅)
      (parse_aln_lines (rt := example_runtime) aln_b ∅) 5%float world0
    = (world0, Ok (1, 2, 2)%float).
Proof.
  assert (∃ k r1 r2,
      parse_aln_lines (rt := example_runtime) aln_a ∅ !! k = Some r1
      ∧ parse_aln_lines (rt := example_runtime) aln_b ∅ !! k = Some r2
      ∧ (abs (aln_tilt r1) <=? 5)%float = true) as Hex.
  { exists 1%Z, (-85.25, 10.5, -3.25, 1)%float, (-84.75, 13.5, -2.25, 0.5)%float.
    split_and!; vm_compute; reflexivity. }
  split; [exact Hex|].
  destruct (aln_estimate_is_median_over_selected (rt := example_runtime)
              _ _ 5%float world0 Hex)
    as (ks & drots & dtxs & dtys & dR & dX & dY
        & _ & _ & _ & _ & _ & _ & _ & _ & _ & Hest & _).
  assert (aln_estimate (rt := example_runtime)
            (parse_aln_lines (rt := example_runtime) aln_a ∅)
            (parse_aln_lines (rt := example_runtime) aln_b ∅) 5%float world0
          = (world0, Ok (1, 2, 2)%float)) as Hval
    by (vm_compute; reflexivity).
  rewrite Hest in Hval |- *. exact Hval.
Defined.


Lemma aln_estimate_line_order_independent_witness :
  aln_a ≡ₚ reverse aln_a ∧ aln_b ≡ₚ reverse aln_b
  ∧ ∃ est,
      aln_estimate (rt := example_runtime)
        (parse_aln_lines (rt := example_runtime) aln_a ∅)
        (parse_aln_lines (rt := example_runtime) aln_b ∅) 5%float world0
      = (world0, Ok est)
      ∧ aln_estimate (rt := example_runtime)
          (parse_aln_lines (rt := example_runtime) (reverse aln_a) ∅)
          (parse_aln_lines (rt := example_runtime) (reverse aln_b) ∅)
          5%float world0
        = (world0, Ok est).
Proof.
  assert (aln_a ≡ₚ reverse aln_a) as Hpa
    by (symmetry; apply reverse_Permutation).
  assert (aln_b ≡ₚ reverse aln_b) as Hpb
    by (symmetry; apply reverse_Permutation).
  split_and!; [done..|].
  apply (aln_estimate_line_order_independent (rt := example_runtime)
           aln_a (reverse aln_a) aln_b (reverse aln_b) 5%float world0 Hpa Hpb).
  - repeat (constructor; [vm_compute; reflexivity|]). constructor.
  - repeat (constructor; [vm_compute; reflexivity|]). constructor.
  - refine (bool_decide_unpack _ _). vm_compute. exact I.
  - refine (bool_decide_unpack _ _). vm_compute. exact I.
  - exists 1%Z, (-85.25, 10.5, -3.25, 1)%float, (-84.75, 13.5, -2.25, 0.5)%float.
    split_and!.
    + vm_compute. right. left.
    + vm_compute. right. left.
    + vm_compute. reflexivity.
Defined.

Lemma parse_aln_stops_at_first_malformed_witness :
  Forall (λ l, aln_malformed (rt := example_runtime) l = false) aln_a
  ∧ aln_malformed (rt := example_runtime) aln_short_line = true
  ∧ parse_aln_lines (rt := example_runtime)
      (aln_a ++ aln_short_line :: aln_trailer) ∅
    = <[3%Z := (-84.75, 9.5, -1.5, 7)%float]>
        (<[2%Z := (-85, 11, -2, 4)%float]>
           (<[1%Z := (-85.25, 10.5, -3.25, 1)%float]>
              (<[0%Z := (-85.5, 12.25, -3.5, -2)%float]> ∅)))
  ∧ parse_aln_lines (rt := example_runtime)
      (aln_a ++ aln_short_line :: aln_trailer) ∅ !! 4%Z = None
  ∧ parse_aln_lines (rt := example_runtime)
      (aln_a ++ aln_short_line :: aln_trailer) ∅ !! 5%Z = None.
Proof.
  assert (Forall (λ l, aln_malformed (rt := example_runtime) l = false) aln_a)
    as Hpre.
  { repeat (constructor; [vm_compute; reflexivity|]). constructor. }
  assert (aln_malformed (rt := example_runtime) aln_short_line = true) as Hbad
    by (vm_compute; reflexivity).
  destruct (parse_aln_stops_at_first_malformed (rt := example_runtime)
              aln_a aln_trailer aln_short_line Hpre Hbad) as (Heq & _ & _).
  rewrite Heq. split_and!; [done|done|reflexivity..].
Defined.

Lemma parse_xf_skips_and_appends_witness :
  parse_xf_lines (rt := example_runtime) xf_a []
  = Ok (xf_a ≫= xf_line_entries (rt := example_runtime))
  ∧ parse_xf_lines (rt := example_runtime) ["1 0 0 1 10 20"] []
    = Ok [(0, 10, 20)%float].
Proof.
  destruct (parse_xf_skips_and_appends (rt := example_runtime) xf_a)
    as (Hall & _ & _ & _ & Hline).
  - repeat (constructor;
      [intros Hs; first [by vm_compute | by vm_compute in Hs]|]).
    constructor.
  - reflexivity.
  - reflexivity.
  - reflexivity.
  - reflexivity.
  - reflexivity.
  - by split.
Defined.

Lemma fatal_conditions_exit_without_output_witness :
  parse_args (rt := example_runtime) (xf_argv "empty.xf" "a.xf")
  = Ok (xf_namespace "empty.xf" "a.xf")
  ∧ fatal_condition (rt := example_runtime) example_fs
      (xf_namespace "empty.xf" "a.xf") msg_no_xf
  ∧ main (rt := example_runtime) example_fs (xf_argv "empty.xf" "a.xf") world0
    = (world0, Raise (SystemExit (inl msg_no_xf))).
Proof.
  assert (parse_args (rt := example_runtime) (xf_argv "empty.xf" "a.xf")
          = Ok (xf_namespace "empty.xf" "a.xf")) as Ha by reflexivity.
  assert (fatal_condition (rt := example_runtime) example_fs
            (xf_namespace "empty.xf" "a.xf") msg_no_xf) as Hfatal.
  { apply no_xf_entries with
      (e1 := []) (e2 := xf_a ≫= xf_line_entries (rt := example_runtime)).
    - reflexivity.
    - vm_compute. reflexivity.
    - vm_compute. reflexivity.
    - by left. }
  split_and!; [done..|].
  apply (fatal_conditions_exit_without_output (rt := example_runtime)
           example_fs _ _ msg_no_xf world0 Ha Hfatal).
Defined.


Lemma serialized_layout_witness :
  build_transform (rt := example_runtime) 0 1.25 (-3) true
  = Ok example_transform
  ∧ length (lines example_transform) = 3%nat
  ∧ unlines (lines example_transform) = example_transform.
Proof.
  assert (build_transform (rt := example_runtime) 0 1.25 (-3) true
          = Ok example_transform) as Htext by reflexivity.
  split; [exact Htext|].
  destruct (serialized_layout (rt := example_runtime) 0 1.25 (-3) true
              example_transform Htext)
    as (c & s & f31 & _ & _ & _ & Hlen & Hlines & _).
  split; [exact Hlen|exact Hlines].
Defined.

Lemma parse_xf_bad_field_raises_witness :
  "1 0 0 1 ten 20" ∈ xf_bad
  ∧ xf_bad_field (rt := example_runtime) "1 0 0 1 ten 20" = true
  ∧ parse_xf_lines (rt := example_runtime) xf_bad [] = Raise ValueError.
Proof.
  assert ("1 0 0 1 ten 20" ∈ xf_bad) as Hin by (right; left).
  assert (xf_bad_field (rt := example_runtime) "1 0 0 1 ten 20" = true) as Hbad
    by reflexivity.
  split_and!; [done..|].
  apply (parse_xf_bad_field_raises (rt := example_runtime) xf_bad
           "1 0 0 1 ten 20" Hin).
  - reflexivity.
  - vm_compute. lia.
  - exact Hbad.
Defined.

(** * Further properties of the parsers *)

Section ParsersFurther.
Context {rt : Builtins}.

(** The loop of [parse_xf] over two runs of lines is the loop over the
    second, from what the loop over the first has built. *)
Lemma parse_xf_lines_app (pre rest : list string) (acc : list xf_entry) :
  parse_xf_lines (pre ++ rest) acc
  = parse_xf_lines pre acc ≫= parse_xf_lines rest.
Proof.
  revert acc. induction pre as [|l pre IH]; intros acc; [done|].
  rewrite <- app_comm_cons. destruct (xf_skipped l) eqn:Hs.
  - rewrite !parse_xf_lines_skip by done. apply IH.
  - rewrite !parse_xf_lines_read by done.
    destruct (xf_fields (split (strip l))) as [e|e]; simpl; [apply IH|done].
Qed.

End ParsersFurther.

(** X1: in [parse_aln] a later line with a section that has occurred
    overwrites the earlier record: among well-formed lines, the record
    kept for a section is the one of the last line that has it. *)
Theorem parse_aln_last_record_wins {rt : Builtins} (lines : list string)
    (before after : list (Z * aln_record)) (k : Z) (r : aln_record) :
  Forall (λ l, aln_malformed l = false) lines →
  aln_records lines = before ++ (k, r) :: after →
  k ∉ after.*1 →
  parse_aln_lines lines ∅ !! k = Some r.
Proof.
  intros Hwf Hrec Hk. rewrite parse_aln_lines_well_formed by done.
  rewrite Hrec, dict_of_list_to_map, (right_id_L ∅ (∪)).
  rewrite reverse_app, reverse_cons, <- app_assoc, list_to_map_app.
  apply lookup_union_Some_raw. right. split.
  - apply not_elem_of_list_to_map_1. by rewrite fmap_reverse, elem_of_reverse.
  - simpl. apply lookup_insert_eq.
Qed.

(** X2: the blank lines and the comments of an [.aln] file play no part,
    wherever they stand, malformed lines or not: without them
    [parse_aln] returns the same dictionary. *)
Theorem parse_aln_ignores_skipped_lines {rt : Builtins} (lines : list string)
    (d : gmap Z aln_record) :
  parse_aln_lines (filter (λ l, is_skipped (strip l) = false) lines) d
  = parse_aln_lines lines d.
Proof.
  revert d. induction lines as [|l lines IH]; intros d; [done|].
  destruct (is_skipped (strip l)) eqn:Hs.
  - rewrite filter_cons_False by congruence.
    rewrite parse_aln_lines_skip by done. apply IH.
  - rewrite filter_cons_True by done.
    rewrite !parse_aln_lines_read by done.
    destruct (length (split (strip l)) <? 5)%nat; [done|].
    destruct (aln_fields (split (strip l))) as [[sec r]|]; [apply IH|done].
Qed.

(** X3: the blank lines, the comments and the lines of fewer than six
    fields of an [.xf] file play no part, wherever they stand: without
    them [parse_xf] returns the same entries, or the same error. *)
Theorem parse_xf_ignores_skipped_lines {rt : Builtins} (lines : list string)
    (acc : list xf_entry) :
  parse_xf_lines (filter (λ l, xf_skipped l = false) lines) acc
  = parse_xf_lines lines acc.
Proof.
  revert acc. induction lines as [|l lines IH]; intros acc; [done|].
  destruct (xf_skipped l) eqn:Hs.
  - rewrite filter_cons_False by congruence.
    rewrite parse_xf_lines_skip by done. apply IH.
  - rewrite filter_cons_True by done.
    rewrite !parse_xf_lines_read by done.
    destruct (xf_fields (split (strip l))) as [e|e]; simpl; [apply IH|done].
Qed.

(** X4: of a line of an [.xf] file only [a11], [a21], [dx] and [dy] are
    used: two lines that agree on these four numbers, whatever their
    [a12], [a22] and the fields after the sixth, can replace each other
    anywhere in the file. *)
Theorem parse_xf_uses_first_column_and_shift {rt : Builtins}
    (pre post : list string) (l l' : string) (acc : list xf_entry)
    (a11 a12 a21 a22 dx dy b12 b22 : float) :
  xf_skipped l = false → xf_skipped l' = false →
  mapM py_float (take 6 (split (strip l))) = Some [a11; a12; a21; a22; dx; dy] →
  mapM py_float (take 6 (split (strip l'))) = Some [a11; b12; a21; b22; dx; dy] →
  parse_xf_lines (pre ++ l :: post) acc = parse_xf_lines (pre ++ l' :: post) acc.
Proof.
  intros Hs Hs' Hm Hm'. rewrite !parse_xf_lines_app.
  destruct (parse_xf_lines pre acc) as [es|e]; [|done].
  cbv [mbind res_bind].
  rewrite !parse_xf_lines_read by done.
  unfold xf_fields. by rewrite Hm, Hm'.
Qed.

(** * Further properties of a run *)

Section RunFurther.
Context {rt : Builtins}.

(** [.xf] mode on two sequences that are not empty. *)
Lemma xf_estimate_run (xf1 xf2 : list xf_entry) (w : world) :
  xf1 ≠ [] → xf2 ≠ [] →
  ∃ dR dX dY,
    median (zip_with (xf_delta xf_rot)
              (take (length xf1 `min` length xf2) xf2)
              (take (length xf1 `min` length xf2) xf1)) = Ok dR
    ∧ median (zip_with (xf_delta xf_dx)
                (take (length xf1 `min` length xf2) xf2)
                (take (length xf1 `min` length xf2) xf1)) = Ok dX
    ∧ median (zip_with (xf_delta xf_dy)
                (take (length xf1 `min` length xf2) xf2)
                (take (length xf1 `min` length xf2) xf1)) = Ok dY
    ∧ xf_estimate xf1 xf2 w
      = (World (stdout w ++
                if decide (length xf1 = length xf2) then []
                else [msg_lengths (length xf1 `min` length xf2)])
               (written w),
         Ok (dR, dX, dY)).
Proof.
  intros Hne1 Hne2.
  assert (0 < length xf1)%nat as Hl1 by (destruct xf1; [done|simpl; lia]).
  assert (0 < length xf2)%nat as Hl2 by (destruct xf2; [done|simpl; lia]).
  set (n := (length xf1 `min` length xf2)%nat).
  assert (∀ proj, ∃ m,
    median (zip_with (xf_delta proj) (take n xf2) (take n xf1)) = Ok m)
    as Hmed.
  { intros proj. apply median_nonempty. intros Hnil.
    apply (f_equal length) in Hnil.
    rewrite length_zip_with, !length_take in Hnil. simpl in Hnil. lia. }
  destruct (Hmed xf_rot) as [dR HR], (Hmed xf_dx) as [dX HX],
    (Hmed xf_dy) as [dY HY].
  exists dR, dX, dY. split_and!; [done..|].
  unfold xf_estimate. fold n.
  destruct (length xf1 =? 0)%nat eqn:E1; [apply Nat.eqb_eq in E1; lia|].
  destruct (length xf2 =? 0)%nat eqn:E2; [apply Nat.eqb_eq in E2; lia|].
  simpl orb. cbv iota.
  unfold mbind at 1, M_bind.
  rewrite !xf_deltas_positional by lia.
  unfold mbind, M_bind, lift, mret, M_ret, print.
  destruct (decide (length xf1 = length xf2)) as [Heq|Hneq].
  - apply Nat.eqb_eq in Heq as Heqb. rewrite Heqb. simpl negb. cbv iota.
    rewrite HR, HX, HY. rewrite app_nil_r. by destruct w.
  - apply Nat.eqb_neq in Hneq as Hneqb. rewrite Hneqb. simpl negb.
    cbv iota. simpl stdout. simpl written. by rewrite HR, HX, HY.
Qed.

(** [main], statement by statement. *)
Lemma main_run (fs : filesystem) (a : argv) (w : world) :
  main fs a w
  = match parse_args a with
    | Raise e => (w, Raise e)
    | Ok args =>
        match estimate fs args w with
        | (w', Raise e) => (w', Raise e)
        | (w', Ok (dR, dX, dY)) =>
            match build_transform dR dX dY (flip_z args) with
            | Raise e => (w', Raise e)
            | Ok text =>
                if fs_writable fs (out args)
                then (World (stdout w' ++ report args dR dX dY)
                            (written w' ++ [(out args, text)]),
                      Ok tt)
                else (w', Raise OSError)
            end
        end
    end.
Proof.
  unfold main, mbind, M_bind, lift, write_file, print, report.
  destruct (parse_args a) as [args|e]; [|done].
  destruct (estimate fs args w) as [w' [[[dR dX] dY]|e]]; [|done].
  destruct (build_transform dR dX dY (flip_z args)) as [text|e]; [|done].
  destruct (fs_writable fs (out args)); [|done].
  simpl. by rewrite <- app_assoc.
Qed.

Lemma parse_args_raises (a : argv) (e : exn) :
  parse_args a = Raise e → e = SystemExit (inr 2%Z).
Proof.
  unfold parse_args, usage_error.
  repeat case_match; congruence.
Qed.

Lemma open_read_raises (fs : filesystem) (path : option string) (e : exn) :
  open_read fs path = Raise e → e = TypeError ∨ e = OSError.
Proof.
  unfold open_read, or_raise. repeat case_match; intros [= <-]; auto.
Qed.

Lemma parse_aln_raises (fs : filesystem) (path : option string) (e : exn) :
  parse_aln fs path = Raise e → e = TypeError ∨ e = OSError.
Proof.
  unfold parse_aln. destruct (open_read fs path) eqn:Ho; [done|].
  intros [= <-]. by apply open_read_raises in Ho.
Qed.

Lemma parse_xf_raises (fs : filesystem) (path : option string) (e : exn) :
  parse_xf fs path = Raise e → io_or_value_error e = true.
Proof.
  unfold parse_xf. destruct (open_read fs path) as [lines|e'] eqn:Ho; simpl.
  - intros ->%parse_xf_lines_raises. done.
  - intros [= <-]. by apply open_read_raises in Ho as [-> | ->].
Qed.

(** What [.aln] mode ends with: an exit, or three numbers; the world as
    it was. *)
Lemma aln_estimate_outcome (d1 d2 : gmap Z aln_record) (cutoff : float)
    (w : world) :
  ∃ r, aln_estimate d1 d2 cutoff w = (w, r)
       ∧ match r with
         | Ok _ => True
         | Raise e => ∃ msg, e = SystemExit (inl msg)
         end.
Proof.
  destruct (selected d1 d2 cutoff) as [|k ks] eqn:Hsel.
  - rewrite aln_estimate_unfold, Hsel.
    destruct (common_secs d1 d2); eexists; (split; [done|]); by eexists.
  - destruct (aln_estimate_selected d1 d2 cutoff w)
      as (dR & dX & dY & _ & _ & _ & ->); [by rewrite Hsel|].
    by eexists.
Qed.

(** What [.xf] mode ends with: an exit with the world as it was, or
    three numbers and nothing written. *)
Lemma xf_estimate_outcome (e1 e2 : list xf_entry) (w : world) :
  ∃ w' r, xf_estimate e1 e2 w = (w', r)
          ∧ written w' = written w
          ∧ match r with
            | Ok _ => True
            | Raise e => w' = w ∧ ∃ msg, e = SystemExit (inl msg)
            end.
Proof.
  destruct (decide (e1 = [] ∨ e2 = [])) as [Hempty|Hne].
  - rewrite xf_estimate_empty by done.
    eexists _, _. split_and!; [done..|]. split; [done|by eexists].
  - destruct (xf_estimate_run e1 e2 w) as (dR & dX & dY & _ & _ & _ & ->);
      [tauto..|].
    by eexists _, _.
Qed.

(** What the estimate of a run ends with. *)
Lemma estimate_outcome (fs : filesystem) (args : namespace) (w : world) :
  ∃ w' r, estimate fs args w = (w', r)
          ∧ written w' = written w
          ∧ match r with
            | Ok _ => True
            | Raise e =>
                w' = w
                ∧ (io_or_value_error e = true ∨ ∃ msg, e = SystemExit (inl msg))
            end.
Proof.
  destruct (truthy (aln1 args) && truthy (aln2 args)) eqn:Hmode.
  - rewrite estimate_aln_mode by done.
    destruct (parse_aln fs (aln1 args)) as [d1|e] eqn:H1.
    2:{ eexists _, _. split_and!; [done..|]. split; [done|]. left.
        by apply parse_aln_raises in H1 as [-> | ->]. }
    destruct (parse_aln fs (aln2 args)) as [d2|e] eqn:H2.
    2:{ eexists _, _. split_and!; [done..|]. split; [done|]. left.
        by apply parse_aln_raises in H2 as [-> | ->]. }
    destruct (aln_estimate_outcome d1 d2 (tilt_cutoff args) w) as (r & -> & Hr).
    eexists _, _. split_and!; [done..|]. destruct r; [done|]. auto.
  - rewrite estimate_xf_mode by done.
    destruct (parse_xf fs (xf1 args)) as [e1|e] eqn:H1.
    2:{ eexists _, _. split_and!; [done..|]. split; [done|]. left.
        by apply parse_xf_raises in H1. }
    destruct (parse_xf fs (xf2 args)) as [e2|e] eqn:H2.
    2:{ eexists _, _. split_and!; [done..|]. split; [done|]. left.
        by apply parse_xf_raises in H2. }
    destruct (xf_estimate_outcome e1 e2 w) as (w' & r & -> & Hw & Hr).
    eexists _, _. split_and!; [done..|]. destruct r; [done|].
    destruct Hr as [-> Hr]. auto.
Qed.

End RunFurther.

(** X5: no run ends with a [KeyError], an [IndexError] or a
    [StatisticsError]: the lookups [d1[sec]], [d2[sec]], [xf1[i]] and
    [xf2[i]] and the three medians are guarded by the tests before
    them, whatever the files and the command line. *)
Theorem main_never_raises_internal {rt : Builtins} (fs : filesystem)
    (a : argv) (w : world) :
  internal_error (main fs a w).2 = false.
Proof.
  rewrite main_run.
  destruct (parse_args a) as [args|e] eqn:Ha.
  2:{ by apply parse_args_raises in Ha as ->. }
  destruct (estimate_outcome fs args w) as (w' & r & -> & _ & Hr).
  destruct r as [[[dR dX] dY]|e].
  - destruct (build_transform dR dX dY (flip_z args)) as [text|e] eqn:Hb.
    + by destruct (fs_writable fs (out args)).
    + by apply build_transform_raises in Hb as ->.
  - destruct Hr as [_ [He|[msg ->]]]; [|done]. by destruct e.
Qed.

(** X6: a run writes at most one file, and only after its estimate and
    [build_transform] have returned: either nothing is written, or the
    command line was accepted, the estimate was made, [build_transform]
    returned a text for it, and this text is what the run has written,
    to [--out]. *)
Theorem main_writes_at_most_the_transform {rt : Builtins} (fs : filesystem)
    (a : argv) (w : world) :
  written (main fs a w).1 = written w
  ∨ ∃ args w' dR dX dY text,
      parse_args a = Ok args
      ∧ estimate fs args w = (w', Ok (dR, dX, dY))
      ∧ build_transform dR dX dY (flip_z args) = Ok text
      ∧ fs_writable fs (out args) = true
      ∧ written (main fs a w).1 = written w ++ [(out args, text)].
Proof.
  rewrite main_run.
  destruct (parse_args a) as [args|e0] eqn:Ha; [|by left].
  destruct (estimate_outcome fs args w) as (w' & r & Hest & Hw & Hr).
  rewrite Hest. destruct r as [[[dR dX] dY]|e0].
  2:{ left. by destruct Hr as [-> _]. }
  destruct (build_transform dR dX dY (flip_z args)) as [text|e0] eqn:Hb;
    [|by left].
  destruct (fs_writable fs (out args)) eqn:Hwr; [|by left].
  right. exists args, w', dR, dX, dY, text. simpl. by rewrite Hw.
Qed.

(** X7: in [.aln] mode, with both files readable, a common section
    within the cutoff and an output that can be opened, the run takes
    the three medians and calls [build_transform] on them: when that
    returns a text, the run writes it to [--out] and nothing else,
    prints the two lines of its report and nothing else, and returns;
    when that raises, the run ends with its exception, nothing written
    or printed. *)
Theorem main_aln_mode_writes_transform {rt : Builtins} (fs : filesystem)
    (a : argv) (args : namespace) (p1 p2 : string) (l1 l2 : list string)
    (w : world) :
  parse_args a = Ok args →
  aln1 args = Some p1 → aln2 args = Some p2 →
  p1 ≠ EmptyString → p2 ≠ EmptyString →
  fs_lines fs p1 = Some l1 → fs_lines fs p2 = Some l2 →
  selected (parse_aln_lines l1 ∅) (parse_aln_lines l2 ∅) (tilt_cutoff args)
    ≠ [] →
  fs_writable fs (out args) = true →
  ∃ dR dX dY,
    median (omap (delta aln_rot (parse_aln_lines l1 ∅) (parse_aln_lines l2 ∅))
              (selected (parse_aln_lines l1 ∅) (parse_aln_lines l2 ∅)
                        (tilt_cutoff args))) = Ok dR
    ∧ median (omap (delta aln_tx (parse_aln_lines l1 ∅) (parse_aln_lines l2 ∅))
                (selected (parse_aln_lines l1 ∅) (parse_aln_lines l2 ∅)
                          (tilt_cutoff args))) = Ok dX
    ∧ median (omap (delta aln_ty (parse_aln_lines l1 ∅) (parse_aln_lines l2 ∅))
                (selected (parse_aln_lines l1 ∅) (parse_aln_lines l2 ∅)
                          (tilt_cutoff args))) = Ok dY
    ∧ main fs a w
      = match build_transform dR dX dY (flip_z args) with
        | Ok text =>
            (World (stdout w ++ report args dR dX dY)
                   (written w ++ [(out args, text)]),
             Ok tt)
        | Raise e => (w, Raise e)
        end.
Proof.
  intros Ha H1 H2 Hp1 Hp2 Hl1 Hl2 Hsel Hwr.
  destruct (aln_estimate_selected _ _ _ w Hsel)
    as (dR & dX & dY & HR & HX & HY & Hest).
  exists dR, dX, dY. split_and!; [done..|].
  rewrite main_run, Ha, estimate_aln_mode.
  - rewrite H1, H2, (parse_aln_readable fs p1 l1), (parse_aln_readable fs p2 l2)
      by done.
    by rewrite Hest, Hwr.
  - rewrite H1, H2. by destruct p1, p2.
Qed.

(** X8: in [.xf] mode, with both files parsed to sequences that are not
    empty and an output that can be opened, the run prints the warning
    when the lengths differ, takes the three medians of the positional
    differences and calls [build_transform] on them: when that returns
    a text, the run writes it to [--out], prints the two lines of its
    report and returns; when that raises, the run ends with its
    exception, nothing written. *)
Theorem main_xf_mode_writes_transform {rt : Builtins} (fs : filesystem)
    (a : argv) (args : namespace) (p1 p2 : string) (e1 e2 : list xf_entry)
    (w : world) :
  parse_args a = Ok args →
  xf1 args = Some p1 → xf2 args = Some p2 →
  parse_xf fs (Some p1) = Ok e1 → parse_xf fs (Some p2) = Ok e2 →
  e1 ≠ [] → e2 ≠ [] →
  fs_writable fs (out args) = true →
  ∃ dR dX dY,
    median (zip_with (xf_delta xf_rot)
              (take (length e1 `min` length e2) e2)
              (take (length e1 `min` length e2) e1)) = Ok dR
    ∧ median (zip_with (xf_delta xf_dx)
                (take (length e1 `min` length e2) e2)
                (take (length e1 `min` length e2) e1)) = Ok dX
    ∧ median (zip_with (xf_delta xf_dy)
                (take (length e1 `min` length e2) e2)
                (take (length e1 `min` length e2) e1)) = Ok dY
    ∧ main fs a w
      = match build_transform dR dX dY (flip_z args) with
        | Ok text =>
            (World ((stdout w ++
                     if decide (length e1 = length e2) then []
                     else [msg_lengths (length e1 `min` length e2)])
                    ++ report args dR dX dY)
                   (written w ++ [(out args, text)]),
             Ok tt)
        | Raise e =>
            (World (stdout w ++
                    if decide (length e1 = length e2) then []
                    else [msg_lengths (length e1 `min` length e2)])
                   (written w),
             Raise e)
        end.
Proof.
  intros Ha H1 H2 He1 He2 Hne1 Hne2 Hwr.
  destruct (xf_estimate_run e1 e2 w Hne1 Hne2)
    as (dR & dX & dY & HR & HX & HY & Hest).
  exists dR, dX, dY. split_and!; [done..|].
  destruct (parse_args_groups a args Ha) as [Hg1 _].
  rewrite H1 in Hg1. apply exactly_one_Some_r in Hg1.
  rewrite main_run, Ha, estimate_xf_mode by (by rewrite Hg1).
  rewrite H1, H2, He1, He2, Hest.
  destruct (build_transform dR dX dY (flip_z args)); [|done].
  by rewrite Hwr.
Qed.

(** X9: an input file that cannot be opened ends the run with an
    uncaught [OSError]: no message of the program, status 1, nothing
    written or printed.  In [.aln] mode this holds for either file; in
    [.xf] mode for the first file, and for the second when the first
    has been parsed. *)
Theorem main_unreadable_input {rt : Builtins} (fs : filesystem) (a : argv)
    (args : namespace) (p1 p2 : string) (w : world) :
  parse_args a = Ok args →
  (aln1 args = Some p1 ∧ aln2 args = Some p2
   ∧ p1 ≠ EmptyString ∧ p2 ≠ EmptyString
   ∧ (fs_lines fs p1 = None ∨ fs_lines fs p2 = None))
  ∨ (xf1 args = Some p1 ∧ xf2 args = Some p2
     ∧ (fs_lines fs p1 = None
        ∨ (∃ e1, parse_xf fs (Some p1) = Ok e1) ∧ fs_lines fs p2 = None)) →
  main fs a w = (w, Raise OSError)
  ∧ user_message (main fs a w).2 = None
  ∧ exit_status (main fs a w).2 = 1%Z.
Proof.
  intros Ha Hcase.
  assert (main fs a w = (w, Raise OSError)) as Hmain.
  { apply main_estimate_raises with args; [done|].
    destruct Hcase as [(H1 & H2 & Hp1 & Hp2 & Hnone)|(H1 & H2 & Hnone)].
    - rewrite estimate_aln_mode by (rewrite H1, H2; by destruct p1, p2).
      rewrite H1, H2. unfold parse_aln, open_read.
      destruct (fs_lines fs p1) as [l1|]; simpl; [|done].
      destruct Hnone as [Hn | Hn]; [done|]. by rewrite Hn.
    - destruct (parse_args_groups a args Ha) as [Hg1 _].
      rewrite H1 in Hg1. apply exactly_one_Some_r in Hg1.
      rewrite estimate_xf_mode by (by rewrite Hg1).
      rewrite H1, H2. destruct Hnone as [Hn|[[e1 He1] Hn]].
      + unfold parse_xf at 1, open_read. by rewrite Hn.
      + rewrite He1. unfold parse_xf, open_read. by rewrite Hn. }
  by rewrite Hmain.
Qed.

(** X10: when the output cannot be opened for writing, the run ends
    after its estimate with an uncaught exception, the [ValueError] of
    [build_transform] when that raises and the [OSError] of [open]
    otherwise: the status is 1, nothing is written and the two lines of
    the report are not printed. *)
Theorem main_unwritable_output {rt : Builtins} (fs : filesystem) (a : argv)
    (args : namespace) (w w' : world) (dR dX dY : float) :
  parse_args a = Ok args →
  estimate fs args w = (w', Ok (dR, dX, dY)) →
  fs_writable fs (out args) = false →
  main fs a w
  = (w', Raise (match build_transform dR dX dY (flip_z args) with
                | Ok _ => OSError
                | Raise _ => ValueError
                end))
  ∧ written w' = written w
  ∧ user_message (main fs a w).2 = None
  ∧ exit_status (main fs a w).2 = 1%Z.
Proof.
  intros Ha Hest Hwr.
  assert (written w' = written w) as Hw.
  { destruct (estimate_outcome fs args w) as (w'' & r & Hest' & Hw & _).
    rewrite Hest in Hest'. by injection Hest' as -> _. }
  rewrite main_run, Ha, Hest.
  destruct (build_transform dR dX dY (flip_z args)) as [text|e] eqn:Hb.
  - by rewrite Hwr.
  - by apply build_transform_raises in Hb as ->.
Qed.

(** X12: an accepted command line that is neither two [.aln] paths that
    are not empty nor two [.xf] paths never gives an estimate: the run
    takes the [.xf] branch and ends with an uncaught [TypeError],
    [OSError] or [ValueError], nothing written or printed. *)
Theorem unpaired_formats_never_estimate {rt : Builtins} (fs : filesystem)
    (a : argv) (args : namespace) (w : world) :
  parse_args a = Ok args →
  truthy (aln1 args) && truthy (aln2 args) = false →
  xf1 args = None ∨ xf2 args = None →
  ∃ e, main fs a w = (w, Raise e) ∧ io_or_value_error e = true.
Proof.
  intros Ha Hmode Hxf.
  assert (∃ e, estimate fs args w = (w, Raise e) ∧ io_or_value_error e = true)
    as (e & Hest & He).
  { rewrite estimate_xf_mode by done.
    destruct (parse_xf fs (xf1 args)) as [e1|e] eqn:H1.
    - destruct Hxf as [Hx|Hx]; rewrite Hx in *; [done|].
      by exists TypeError.
    - exists e. split; [done|]. by apply parse_xf_raises in H1. }
  exists e. split; [|done]. by apply main_estimate_raises with args.
Qed.

(** * Further properties of the estimates *)

Lemma filter_ext_elem {A : Type} (P Q : A → Prop) `{∀ x, Decision (P x)}
    `{∀ x, Decision (Q x)} (l : list A) :
  (∀ x, x ∈ l → P x ↔ Q x) → filter P l = filter Q l.
Proof.
  induction l as [|x l IH]; intros Hpq; [done|].
  assert (filter P l = filter Q l) as Hl.
  { apply IH. intros y Hy. apply Hpq. by right. }
  destruct (decide (P x)) as [Hp|Hp].
  - rewrite !filter_cons_True; [by rewrite Hl| |done]. apply Hpq; [left|done].
  - rewrite !filter_cons_False; [done| |done]. intros Hq. apply Hp, Hpq; [left|done].
Qed.

Lemma omap_ext_elem {A B : Type} (f g : A → option B) (l : list A) :
  (∀ x, x ∈ l → f x = g x) → omap f l = omap g l.
Proof.
  intros Hfg. apply list_omap_ext, Forall_Forall2_diag, Forall_forall.
  exact Hfg.
Qed.

Lemma NoDup_all_equal {A : Type} (l : list A) (k : A) :
  NoDup l → k ∈ l → (∀ x, x ∈ l → x = k) → l = [k].
Proof.
  intros Hnd Hk Hall. destruct l as [|x l]; [by apply elem_of_nil in Hk|].
  assert (x = k) as -> by (apply Hall; left).
  destruct l as [|y l]; [done|].
  assert (y = k) as -> by (apply Hall; right; left).
  apply NoDup_cons in Hnd as [Hnotin _]. exfalso. apply Hnotin. left.
Qed.

Section EstimatesFurther.
Context {rt : Builtins}.

(** Two pairs of dictionaries with the same common sections, the same
    sections within the cutoff and the same records at these give the
    same run of [.aln] mode. *)
Lemma aln_estimate_ext (d1 d2 d1' d2' : gmap Z aln_record) (cutoff : float)
    (w : world) :
  dom d1' ∩ dom d2' = dom d1 ∩ dom d2 →
  (∀ k, k ∈ dom d1 ∩ dom d2 →
        within_cutoff d1' cutoff k = within_cutoff d1 cutoff k) →
  (∀ k, k ∈ dom d1 ∩ dom d2 → within_cutoff d1 cutoff k = true →
        d1' !! k = d1 !! k ∧ d2' !! k = d2 !! k) →
  aln_estimate d1' d2' cutoff w = aln_estimate d1 d2 cutoff w.
Proof.
  intros Hdom Hcut Hrec.
  assert (common_secs d1' d2' = common_secs d1 d2) as Hsecs.
  { unfold common_secs. by rewrite Hdom. }
  assert (∀ k, k ∈ common_secs d1 d2 → k ∈ dom d1 ∩ dom d2) as Hin.
  { intros k. by rewrite common_secs_Permutation, elem_of_elements. }
  assert (selected d1' d2' cutoff = selected d1 d2 cutoff) as Hsel.
  { unfold selected. rewrite Hsecs. apply filter_ext_elem.
    intros k Hk. by rewrite Hcut by auto. }
  assert (∀ proj, omap (delta proj d1' d2') (selected d1 d2 cutoff)
                  = omap (delta proj d1 d2) (selected d1 d2 cutoff)) as Hd.
  { intros proj. apply omap_ext_elem. intros k Hk.
    unfold selected in Hk. apply list_elem_of_filter in Hk as [Hc Hk].
    destruct (Hrec k (Hin k Hk) Hc) as [H1 H2].
    unfold delta. by rewrite H1, H2. }
  by rewrite !aln_estimate_unfold, Hsecs, Hsel, !Hd.
Qed.

End EstimatesFurther.

(** X13: the sections that occur in one of the two [.aln] files only
    play no part: records added to either dictionary at sections the
    other dictionary does not have (and that are not added to both)
    leave the run of [.aln] mode as it is. *)
Theorem aln_estimate_ignores_unshared_sections {rt : Builtins}
    (d1 d2 x1 x2 : gmap Z aln_record) (cutoff : float) (w : world) :
  dom x1 ## dom d2 → dom x2 ## dom d1 → dom x1 ## dom x2 →
  aln_estimate (x1 ∪ d1) (x2 ∪ d2) cutoff w = aln_estimate d1 d2 cutoff w.
Proof.
  intros H12 H21 Hxx.
  assert (∀ k, k ∈ dom d1 ∩ dom d2 →
               (x1 ∪ d1) !! k = d1 !! k ∧ (x2 ∪ d2) !! k = d2 !! k) as Hlk.
  { intros k [Hk1 Hk2]%elem_of_intersection. split.
    - apply lookup_union_r, not_elem_of_dom. intros Hx. by apply (H12 k).
    - apply lookup_union_r, not_elem_of_dom. intros Hx. by apply (H21 k). }
  apply aln_estimate_ext.
  - rewrite !dom_union_L. apply set_eq. intros k.
    rewrite !elem_of_intersection, !elem_of_union. split.
    + intros [[Hx1|Hk1] [Hx2|Hk2]].
      * destruct (Hxx k Hx1 Hx2).
      * destruct (H12 k Hx1 Hk2).
      * destruct (H21 k Hx2 Hk1).
      * done.
    + intros [Hk1 Hk2]. auto.
  - intros k Hk. unfold within_cutoff. by rewrite (proj1 (Hlk k Hk)).
  - intros k Hk _. by apply Hlk.
Qed.

(** X14: a common section whose tilt in the first file is beyond the
    cutoff plays no part: its records can be replaced in both
    dictionaries, the tilt of the first staying beyond the cutoff,
    without a change to the run of [.aln] mode. *)
Theorem aln_estimate_ignores_sections_beyond_cutoff {rt : Builtins}
    (d1 d2 : gmap Z aln_record) (k : Z) (r1 r1' r2' : aln_record)
    (cutoff : float) (w : world) :
  d1 !! k = Some r1 → is_Some (d2 !! k) →
  (abs (aln_tilt r1) <=? cutoff)%float = false →
  (abs (aln_tilt r1') <=? cutoff)%float = false →
  aln_estimate (<[k := r1']> d1) (<[k := r2']> d2) cutoff w
  = aln_estimate d1 d2 cutoff w.
Proof.
  intros H1 H2 Hc Hc'.
  assert (within_cutoff d1 cutoff k = false) as Hk
    by (unfold within_cutoff; by rewrite H1).
  apply aln_estimate_ext.
  - rewrite !dom_insert_L.
    assert (k ∈ dom d1) as Hk1 by (apply elem_of_dom; by eexists).
    assert (k ∈ dom d2) as Hk2 by by apply elem_of_dom.
    apply set_eq. intros j.
    rewrite !elem_of_intersection, !elem_of_union, !elem_of_singleton.
    split.
    + intros [[-> | Hj1] [Hj2 | Hj2]]; subst; auto.
    + intros [Hj1 Hj2]. auto.
  - intros k' _. unfold within_cutoff. destruct (decide (k' = k)) as [->|Hne].
    + by rewrite lookup_insert_eq, H1, Hc, Hc'.
    + by rewrite lookup_insert_ne.
  - intros k' _ Hck'. assert (k' ≠ k) as Hne by congruence.
    by rewrite !lookup_insert_ne.
Qed.

(** X15: with a single common section within the cutoff, the estimate
    is the difference of its two records, as it stands. *)
Theorem aln_estimate_single_section {rt : Builtins}
    (d1 d2 : gmap Z aln_record) (k : Z) (r1 r2 : aln_record)
    (cutoff : float) (w : world) :
  d1 !! k = Some r1 → d2 !! k = Some r2 →
  (abs (aln_tilt r1) <=? cutoff)%float = true →
  (∀ k', k' ≠ k → is_Some (d1 !! k') → is_Some (d2 !! k') →
         within_cutoff d1 cutoff k' = false) →
  aln_estimate d1 d2 cutoff w
  = (w, Ok ((aln_rot r2 - aln_rot r1)%float,
            (aln_tx r2 - aln_tx r1)%float,
            (aln_ty r2 - aln_ty r1)%float)).
Proof.
  intros H1 H2 Hc Hothers.
  assert (selected d1 d2 cutoff = [k]) as Hsel.
  { apply NoDup_all_equal.
    - apply NoDup_filter, common_secs_NoDup.
    - apply elem_of_selected. by exists r1, r2.
    - intros k' Hk'. destruct (decide (k' = k)) as [|Hne]; [done|].
      unfold selected in Hk'. apply list_elem_of_filter in Hk' as [Hck' Hk'].
      apply elem_of_common_secs in Hk' as [Hk1 Hk2].
      rewrite (Hothers k' Hne Hk1 Hk2) in Hck'. discriminate. }
  rewrite aln_estimate_unfold, Hsel.
  destruct (common_secs d1 d2) as [|k0 secs] eqn:Hsecs.
  { unfold selected in Hsel. by rewrite Hsecs in Hsel. }
  simpl omap. rewrite !(delta_lookup _ _ _ _ _ _ H1 H2).
  by rewrite !median_singleton.
Qed.

(** X16: in [.xf] mode the entries after the first [min(N1, N2)] of
    either sequence play no part in what the run returns: it is what
    the two sequences cut to that length return. *)
Theorem xf_estimate_ignores_entries_beyond_min {rt : Builtins}
    (xf1 xf2 : list xf_entry) (w : world) :
  (xf_estimate (take (length xf1 `min` length xf2) xf1)
               (take (length xf1 `min` length xf2) xf2) w).2
  = (xf_estimate xf1 xf2 w).2.
Proof.
  destruct (decide (xf1 = [] ∨ xf2 = [])) as [Hempty|Hne].
  - rewrite (xf_estimate_empty xf1 xf2) by done.
    rewrite xf_estimate_empty; [done|].
    destruct Hempty as [-> | ->]; [by left|right].
    by rewrite Nat.min_0_r.
  - assert (xf1 ≠ [] ∧ xf2 ≠ []) as [Hne1 Hne2] by tauto.
    set (n := (length xf1 `min` length xf2)%nat).
    assert (0 < n)%nat as Hn.
    { unfold n. destruct xf1, xf2; simpl; try done; lia. }
    assert (length (take n xf1) = n) as Hl1 by (rewrite length_take; lia).
    assert (length (take n xf2) = n) as Hl2 by (rewrite length_take; lia).
    destruct (xf_estimate_run xf1 xf2 w Hne1 Hne2)
      as (dR & dX & dY & HR & HX & HY & ->).
    destruct (xf_estimate_run (take n xf1) (take n xf2) w)
      as (dR' & dX' & dY' & HR' & HX' & HY' & ->).
    { intros Hnil. rewrite Hnil in Hl1. simpl in Hl1. lia. }
    { intros Hnil. rewrite Hnil in Hl2. simpl in Hl2. lia. }
    fold n in HR, HX, HY.
    rewrite Hl1, Hl2, Nat.min_id, !take_idemp in HR', HX', HY'.
    simpl. congruence.
Qed.

(** X17: with one entry in the first [.xf] sequence, the estimate is
    the difference between the first entry of the second sequence and
    it; the warning is printed when the second sequence has more. *)
Theorem xf_estimate_single_entry {rt : Builtins} (e1 e2 : xf_entry)
    (rest : list xf_entry) (w : world) :
  xf_estimate [e1] (e2 :: rest) w
  = (World (stdout w ++ match rest with
                        | [] => []
                        | _ => [msg_lengths 1]
                        end)
           (written w),
     Ok (xf_delta xf_rot e2 e1, xf_delta xf_dx e2 e1, xf_delta xf_dy e2 e1)).
Proof.
  destruct (xf_estimate_run [e1] (e2 :: rest) w)
    as (dR & dX & dY & HR & HX & HY & ->); [done..|].
  simpl in HR, HX, HY. rewrite median_singleton in HR, HX, HY.
  injection HR as <-. injection HX as <-. injection HY as <-.
  simpl length. destruct rest as [|e3 rest]; [done|].
  by rewrite decide_False by (simpl; lia).
Qed.

(** * The further properties at the example inputs *)

Lemma parse_aln_last_record_wins_witness :
  parse_aln_lines (rt := example_runtime) aln_repeated ∅ !! 1%Z
  = Some (11, 21, 31, 0.5)%float.
Proof.
  apply (parse_aln_last_record_wins (rt := example_runtime) aln_repeated
           [(1%Z, (10, 20, 30, 0)%float); (2%Z, (1, 2, 3, 0)%float)] []).
  - repeat (constructor; [vm_compute; reflexivity|]). constructor.
  - vm_compute. reflexivity.
  - apply not_elem_of_nil.
Defined.

Lemma parse_xf_uses_first_column_and_shift_witness :
  parse_xf_lines (rt := example_runtime)
    ([xf_header_line] ++ xf_line_a :: ["1 0 0 1 10 20"]) []
  = parse_xf_lines (rt := example_runtime)
      ([xf_header_line] ++ xf_line_b :: ["1 0 0 1 10 20"]) [].
Proof.
  apply (parse_xf_uses_first_column_and_shift (rt := example_runtime)
           [xf_header_line] ["1 0 0 1 10 20"] xf_line_a xf_line_b []
           0 (-1) 1 0 (-3.5) 2.25 7 8); vm_compute; reflexivity.
Defined.

Lemma main_aln_mode_writes_transform_witness :
  main (rt := example_runtime) example_files
    (aln_argv "a.aln" "b.aln" "out.xf") world0
  = (World (report
              (aln_namespace "a.aln" "b.aln" "out.xf") 1 2 2)
           [("out.xf", example_aln_transform)],
     Ok tt).
Proof.
  destruct (main_aln_mode_writes_transform (rt := example_runtime)
              example_files (aln_argv "a.aln" "b.aln" "out.xf")
              (aln_namespace "a.aln" "b.aln" "out.xf")
              "a.aln" "b.aln" aln_a aln_b world0)
    as (dR & dX & dY & HR & HX & HY & Hmain).
  - reflexivity.
  - reflexivity.
  - reflexivity.
  - discriminate.
  - discriminate.
  - reflexivity.
  - reflexivity.
  - vm_compute. discriminate.
  - reflexivity.
  - vm_compute in HR, HX, HY.
    injection HR as <-. injection HX as <-. injection HY as <-.
    refine (eq_trans Hmain _). vm_compute. reflexivity.
Defined.

Lemma main_xf_mode_writes_transform_witness :
  main (rt := example_runtime) example_files
    (xf_argv_out "c.xf" "d.xf" "out.xf") world0
  = (World (msg_lengths 2
            :: report
                 (xf_namespace_out "c.xf" "d.xf" "out.xf") 0 2 4)
           [("out.xf", example_xf_transform)],
     Ok tt).
Proof.
  destruct (main_xf_mode_writes_transform (rt := example_runtime)
              example_files (xf_argv_out "c.xf" "d.xf" "out.xf")
              (xf_namespace_out "c.xf" "d.xf" "out.xf")
              "c.xf" "d.xf" entries_c entries_d world0)
    as (dR & dX & dY & HR & HX & HY & Hmain).
  - reflexivity.
  - reflexivity.
  - reflexivity.
  - vm_compute. reflexivity.
  - vm_compute. reflexivity.
  - discriminate.
  - discriminate.
  - reflexivity.
  - vm_compute in HR, HX, HY.
    injection HR as <-. injection HX as <-. injection HY as <-.
    refine (eq_trans Hmain _). vm_compute. reflexivity.
Defined.

Lemma main_unreadable_input_witness :
  fs_lines example_files "missing.aln" = None
  ∧ main (rt := example_runtime) example_files
      (aln_argv "missing.aln" "b.aln" "out.xf") world0
    = (world0, Raise OSError).
Proof.
  split; [reflexivity|].
  apply (main_unreadable_input (rt := example_runtime) example_files
           (aln_argv "missing.aln" "b.aln" "out.xf")
           (aln_namespace "missing.aln" "b.aln" "out.xf")
           "missing.aln" "b.aln" world0); [reflexivity|].
  left. split_and!; [reflexivity|reflexivity|done|done|]. by left.
Defined.

Lemma main_unwritable_output_witness :
  fs_writable example_files "/readonly/out.xf" = false
  ∧ build_transform (rt := example_runtime) 0 2 4 false
    = Ok example_xf_transform
  ∧ main (rt := example_runtime) example_files
      (xf_argv_out "c.xf" "d.xf" "/readonly/out.xf") world0
    = (World [msg_lengths 2] [], Raise OSError).
Proof.
  split_and!; [reflexivity..|].
  destruct (main_unwritable_output (rt := example_runtime) example_files
              (xf_argv_out "c.xf" "d.xf" "/readonly/out.xf")
              (xf_namespace_out "c.xf" "d.xf" "/readonly/out.xf")
              world0 (World [msg_lengths 2] []) 0 2 4) as (Hmain & _).
  - reflexivity.
  - vm_compute. reflexivity.
  - reflexivity.
  - refine (eq_trans Hmain _). vm_compute. reflexivity.
Defined.

Lemma unpaired_formats_never_estimate_witness :
  ∃ e, main (rt := example_runtime) example_files
         (reverse_mixed_argv "c.xf" "b.aln" "out.xf") world0
       = (world0, Raise e)
       ∧ io_or_value_error e = true.
Proof.
  apply (unpaired_formats_never_estimate (rt := example_runtime) example_files
           (reverse_mixed_argv "c.xf" "b.aln" "out.xf")
           (reverse_mixed_namespace "c.xf" "b.aln" "out.xf") world0).
  - reflexivity.
  - reflexivity.
  - by right.
Defined.

Lemma aln_estimate_ignores_unshared_sections_witness :
  aln_estimate (rt := example_runtime)
    ({[ 10%Z := (1, 2, 3, 0)%float ]}
       ∪ parse_aln_lines (rt := example_runtime) aln_a ∅)
    ({[ 11%Z := (4, 5, 6, 0)%float ]}
       ∪ parse_aln_lines (rt := example_runtime) aln_b ∅)
    5%float world0
  = aln_estimate (rt := example_runtime)
      (parse_aln_lines (rt := example_runtime) aln_a ∅)
      (parse_aln_lines (rt := example_runtime) aln_b ∅) 5%float world0.
Proof.
  apply (aln_estimate_ignores_unshared_sections (rt := example_runtime)).
  - refine (bool_decide_unpack _ _). vm_compute. exact I.
  - refine (bool_decide_unpack _ _). vm_compute. exact I.
  - refine (bool_decide_unpack _ _). vm_compute. exact I.
Defined.

Lemma aln_estimate_ignores_sections_beyond_cutoff_witness :
  aln_estimate (rt := example_runtime)
    (<[ 3%Z := (0, 0, 0, 9)%float ]>
       (parse_aln_lines (rt := example_runtime) aln_a ∅))
    (<[ 3%Z := (1, 1, 1, 1)%float ]>
       (parse_aln_lines (rt := example_runtime) aln_b ∅))
    5%float world0
  = aln_estimate (rt := example_runtime)
      (parse_aln_lines (rt := example_runtime) aln_a ∅)
      (parse_aln_lines (rt := example_runtime) aln_b ∅) 5%float world0.
Proof.
  apply (aln_estimate_ignores_sections_beyond_cutoff (rt := example_runtime)
           _ _ 3%Z (-84.75, 9.5, -1.5, 7)%float).
  - vm_compute. reflexivity.
  - eexists. vm_compute. reflexivity.
  - vm_compute. reflexivity.
  - vm_compute. reflexivity.
Defined.

Lemma aln_estimate_single_section_witness :
  aln_estimate (rt := example_runtime)
    (parse_aln_lines (rt := example_runtime) aln_single_a ∅)
    (parse_aln_lines (rt := example_runtime) aln_single_b ∅) 5%float world0
  = (world0, Ok (0.5, 2.5, -1)%float).
Proof.
  apply (aln_estimate_single_section (rt := example_runtime)
           _ _ 7%Z (1.5, 2, 3, 0)%float (2, 4.5, 2, 0)%float).
  - vm_compute. reflexivity.
  - vm_compute. reflexivity.
  - vm_compute. reflexivity.
  - intros k' Hne _ _.
    change (parse_aln_lines (rt := example_runtime) aln_single_a ∅)
      with (<[ 8%Z := (0, 0, 0, 30)%float ]>
              (<[ 7%Z := (1.5, 2, 3, 0)%float ]> (∅ : gmap Z aln_record))).
    unfold within_cutoff. destruct (decide (k' = 8%Z)) as [->|Hne8].
    + rewrite lookup_insert_eq. vm_compute. reflexivity.
    + by rewrite !lookup_insert_ne, lookup_empty.
Defined.
